(* ===== verification/_CoqProject ===== *)
-Q . S2P
Prelude.v
GLEnum.v
OStream.v
GLContext.v
ErrorString.v
Reporter.v
System.v
OracleCtx.v
ReportFormat.v
