(* ===== verification/Prelude.v ===== *)
(** * Easy3D OpenGL error reporting: a verification development

    The program is [src/easy3d/opengl_error.cpp] of Easy3D.  It has one
    component, the error reporter, and two collaborators it only calls:
    the OpenGL context ([glGetError], [glCheckFramebufferStatus], error
    codes from GLEW's [GL/glew.h]) and the C++ diagnostic stream
    [std::cerr].

    - [gl_error_string] (lines 32-46) maps an error code to a C string
      with a [switch], and falls back to "Unknown error".
    - [check_gl_error] (lines 49-59) reads one error code.  If it is an
      error, it writes "GL error in file '<file>' @ line <line>: <text>"
      to [std::cerr] and returns [false]; otherwise it returns [true].
    - [gl_error] (lines 61-71) reads one error code.  On an error it
      stores the text in its out-parameter and returns [true].
    - [frame_buffer_error] (lines 84-121) asks for the status of
      [GL_FRAMEBUFFER].  It returns [true] on "complete".  Otherwise it
      stores the status name (or "unknown error") in its out-parameter
      and returns [false].
    - [check_frame_buffer_error] (lines 74-81) calls
      [frame_buffer_error].  It logs and returns [false] only when that
      call returned [true] with a non-empty message.

    ** Files, in dependency order
    - [Prelude] (this file): the notation scope [easy3d_scope] ([+s+] is
      string append), the state monad [St] with [run] and its
      bind/return equations, the nullable C string [c_str], the
      association-list lookup [assoc_Z], generic string lemmas, the hint
      databases [easy3d] and [easy3d_rw], and the tactics [case_code]
      (one case per test of a C [switch]) and [st_unfold].
    - [GLEnum]: [GLenum] is [unsigned int], a [Z]; the code only
      compares such values.  The GLEW constants are abbreviations,
      because they are [#define]s.  [gl_error_code] is the set of cases
      of [gl_error_string] and [fb_status] the set of cases of
      [frame_buffer_error].  Each has an encoding [*_enum], a decoding
      [*_of_enum] that tests the case labels in the source's order, an
      [EqDecision] instance and a [Finite] instance.
    - [OStream] (Module [OStream]): [std::cerr] is the text written so
      far.  [os_write] is [operator<<] on a string, [os_int] on an
      [int] (through [int_to_dec], the Standard Library's decimal
      printer), and [os_endl] is [std::endl].
    - [GLContext]: the interface between the reporter and OpenGL.
      [GLContext] is a class of two operations, [glGetError] and
      [glCheckFramebufferStatus].  [GLContextLaws] is the contract the
      reporter relies on, stated with a well-formedness predicate, a
      count of pending errors and the status of the draw framebuffer.
      Module [FlagCtx] implements it with the error-flag array of the
      OpenGL specification (4.6 core, section 2.3.1).  It has the step
      relation [gl_step] (record an error, bind a framebuffer, run a
      query), the invariant [ctx_wf] and its proof for every reachable
      state ([reachable_wf]), and the refinement of the specification's
      nondeterministic [glGetError] ([ctx_glGetError_refines]).  The
      instance [flag_ctx_laws] discharges the contract.
    - [ErrorString] (Module [ErrorString]): [gl_error_string] as the
      source's switch, returning a [c_str].  [gl_error_table] lists the
      same cases as a table (spec design note 9), and [describe_error],
      a lookup in it, is proved equal to the switch
      ([gl_error_string_describe]); statements about reports use it.
    - [Reporter]: the [world] record (GL context, [std::cerr] text) and
      the four entry points [check_gl_error], [gl_error],
      [frame_buffer_error] and [check_frame_buffer_error], written
      against the [GLContext] interface in Section [Reporter].  The
      reports of lines 54 and 77 are [gl_error_report] and
      [fb_error_report]; their text is [gl_error_msg] and
      [fb_error_msg].  [check_gl_error_n] runs [n] checks in a row, as
      the repeated call sites of the logging macro do.
      [fb_error_messages] lists the nine messages the status switch can
      store.  [gl_errors] lists what [n] successive [glGetError] calls
      return, and [reports_text] is the text of their reports.  Section
      [Laws] proves the entry points correct from [GLContextLaws]
      alone.
      Module [OnFlagCtx] runs them on concrete flag-array contexts and
      proves the reachable-state theorem for [FlagCtx].
    - [System] (Module [System]): the reporter inside a GL program.
      [sys_step] interleaves GL steps of [FlagCtx] with calls of the four
      entry points.  [cerr_log] describes the text [std::cerr] can hold,
      and [check_spec] is the abstract contract of [check_gl_error]
      (any set flag may be the one reported).
    - [OracleCtx] (Module [OracleCtx]): a second implementation of the
      contract.  Its [glGetError] reads the set flag the driver chooses
      (a list of future choices, [o_picks]), as the OpenGL specification
      allows; [oracle_ctx_laws] discharges [GLContextLaws] for it, so
      Section [Laws] of [Reporter] applies to every driver.
    - [ReportFormat] (Module [ReportFormat]): a parser for the report
      line of spec section 6.  [parse_report] takes the fixed prefix as
      a parameter; [parse_gl_report] reads the line of line 54.  It
      scans from the right: the last newline, then the last
      quote, then the first colon of the line number.

    ** What the theorems show
    - [check_frame_buffer_error] is defective.  It returns [true] and
      writes nothing in every well-formed state, even when the
      framebuffer is incomplete.  Its guard needs [true] from
      [frame_buffer_error] and a non-empty message, but
      [frame_buffer_error] returns [true] only on "complete" and leaves
      the message empty then
      ([Reporter.check_frame_buffer_error_never_reports]).
    - [check_gl_error] returns [true] and changes nothing exactly when no
      error is pending.  Otherwise it returns [false], consumes one error,
      and appends exactly
      "GL error in file '<file>' @ line <line>: <description>" and a
      newline.  [gl_error] returns [true] with the description in its
      out-parameter, or [false] with the out-parameter untouched.
      [frame_buffer_error] returns [true] only on "complete", with the
      literal status name or "unknown error" otherwise.  Whatever the
      context, its result has one of two shapes: [true] with the
      out-parameter unchanged, or [false] with one of the nine non-empty
      messages.  With one error pending, [gl_error] consumes it, and a
      [check_gl_error] right after returns [true].
    - Invariant ([System.sys_reachable_inv]): under every interleaving of
      GL steps and calls, the context stays reachable by GL steps alone,
      and [std::cerr] holds only whole GL error report lines.  No
      framebuffer report is ever written.
    - Refinement ([System.check_gl_error_refines]): every run of
      [check_gl_error] on the flag-array context is one that [check_spec]
      allows.  Over all choices of the driver of [OracleCtx], the runs
      are exactly the behaviours [check_spec] allows
      ([OracleCtx.check_gl_error_oracle_exact]).
    - Commutation ([Reporter.check_gl_error_fb_commute]): on every
      well-formed context, [check_gl_error] and [frame_buffer_error] give
      the same results and world in either order ([st_commute] of the
      prelude).  So a framebuffer check never hides a pending GL error.
    - Equivalence ([Reporter.check_gl_error_via_gl_error]):
      [check_gl_error] is [gl_error] with an empty [log], followed by the
      report of line 54 when that returns [true].
    - Liveness ([Reporter.check_gl_error_n_drains]): one call per pending
      error returns [false] each time, appends the report lines of that
      many OpenGL error values in call order, and empties the error
      flags; the next check returns [true].  A single check reports only one of
      several pending errors.
    - Ordering: one check per pending error reports each pending error
      exactly once.  On the flag array the reports come in flag order
      ([System.check_gl_error_n_flag_order]).  Under any choices of the
      [OracleCtx] driver they come in some order: the reported errors are
      a permutation of the pending ones
      ([OracleCtx.check_gl_error_n_oracle_perm]).
    - In every reachable flag-array state, a report carries the error's
      own text, except [GL_CONTEXT_LOST], which the switch reports as
      "Unknown error".
    - The switch never returns a null pointer, so the [if (str)] guards
      always pass.  Distinct codes get distinct texts, and unknown codes
      get "Unknown error".
    - Round trips: every report line of [check_gl_error] parses back to
      its file, line number and error text, for every file name,
      including names with quotes, colons or newlines.

    ** Bounds and fuel
    No definition needs fuel.  Every operation is a finite switch, or one
    query plus a fixed sequence of writes.  [check_gl_error_n] recurses
    on its count.  The liveness theorem gives it exactly [gl_pending]
    iterations, because each call clears one flag.  The source has no
    loop and no recursion, so there is no termination property to
    prove: every entry point is a total function of the model.  GLenum
    values are kept as [Z]; no arithmetic is done on them, so no
    wrap-around arises.

    ** Not modelled
    The GL driver beyond its error flags and framebuffer statuses.  The
    flush done by [std::endl] and the error states of [std::cerr].
    Threads: the GL error state belongs to one context on one thread,
    and every call is synchronous.  The header [opengl_error.h] and its
    macros, which are not among the sources.

    ** Further work
    - Error states of [std::cerr].  The code never tests the stream, and
      each [operator<<] on a failed stream writes nothing.  Modelling
      them means a stream record in place of the text in [world], and
      restating every theorem about the text in terms of it.
    - The reporter driven by the macros of [opengl_error.h], once that
      header is among the sources.
      *)

From stdpp Require Export base list strings decidable finite sets relations.
From Stdlib Require Export ZArith Lia.

Declare Scope easy3d_scope.
Delimit Scope easy3d_scope with e3d.
Open Scope Z_scope.

(** ** State monad

    Stateful C++ code is a function from the state before to a result and
    the state after: value first, state second. *)
Definition St (S A : Type) : Type := S -> A * S.

#[export] Instance St_ret {S} : MRet (St S) := fun A x s => (x, s).
#[export] Instance St_bind {S} : MBind (St S) :=
  fun A B f m s => let '(a, s') := m s in f a s'.

(** [run m s] is [m s], named so that statements read as "running [m]". *)
Definition run {S A} (m : St S A) (s : S) : A * S := m s.

Lemma st_bind_run {S A B} (m : St S A) (f : A -> St S B) (s : S) :
  run (m ≫= f) s = let '(a, s') := run m s in run (f a) s'.
Proof. reflexivity. Qed.

Lemma st_ret_run {S A} (x : A) (s : S) : run (mret x) s = (x, s).
Proof. reflexivity. Qed.

(** [ma] and [mb] commute from the state [s]: running them in either
    order gives the same pair of results and the same final state. *)
Definition st_commute {S A B} (ma : St S A) (mb : St S B) (s : S) : Prop :=
  run (a ← ma; b ← mb; mret (a, b)) s = run (b ← mb; a ← ma; mret (a, b)) s.

(** A C string ([const char*]): [None] is the null pointer. *)
Definition c_str := option string.

(** Lookup in an association list keyed by integers: the first entry
    whose key matches wins, as in a table scanned from the top. *)
Fixpoint assoc_Z {A} (k : Z) (l : list (Z * A)) : option A :=
  match l with
  | [] => None
  | (k', v) :: l' => if k =? k' then Some v else assoc_Z k l'
  end.

Notation "s1 +s+ s2" := (String.append s1 s2)
  (at level 60, right associativity) : easy3d_scope.

(** ** Generic lemmas on strings

    stdpp makes [String.append] opaque to [simpl]; these equations are the
    two cases of its definition, used by [rewrite] instead. *)

Lemma string_app_nil_l (b : string) : (""%string +s+ b)%e3d = b.
Proof. reflexivity. Qed.

Lemma string_app_cons (x : Ascii.ascii) (a b : string) :
  (String x a +s+ b)%e3d = String x (a +s+ b)%e3d.
Proof. reflexivity. Qed.

Lemma string_app_assoc (a b c : string) :
  ((a +s+ b) +s+ c = a +s+ (b +s+ c))%e3d.
Proof.
  induction a as [|x a IH]; [done|]. by rewrite !string_app_cons, IH.
Qed.

Lemma string_app_nil_r (a : string) : (a +s+ "")%e3d = a.
Proof. induction a as [|x a IH]; [done|]. by rewrite string_app_cons, IH. Qed.

Lemma string_app_length (a b : string) :
  String.length (a +s+ b)%e3d = (String.length a + String.length b)%nat.
Proof.
  induction a as [|x a IH]; [done|]. rewrite string_app_cons; simpl; lia.
Qed.

Lemma string_app_eq_nil (a b : string) :
  (a +s+ b)%e3d = ""%string -> a = ""%string /\ b = ""%string.
Proof. by destruct a, b. Qed.

Lemma string_app_neq_nil_r (a b : string) :
  b <> ""%string -> (a +s+ b)%e3d <> ""%string.
Proof. intros Hb H. apply string_app_eq_nil in H. tauto. Qed.

Create HintDb easy3d.
Create Rewrite HintDb easy3d_rw.
#[export] Hint Rewrite string_app_nil_l string_app_cons string_app_assoc
  string_app_nil_r string_app_length
  : easy3d_rw.
#[export] Hint Resolve string_app_neq_nil_r : easy3d.

(** ** Tactics *)

(** Case analysis on a chain of [Z.eqb] tests, as a C [switch] compiles:
    each test either holds (and the code is substituted) or fails. *)
Ltac case_code :=
  repeat match goal with
  | |- context [Z.eqb ?x ?y] =>
      destruct (Z.eqb_spec x y); subst; try discriminate; try lia
  | H : context [Z.eqb ?x ?y] |- _ =>
      destruct (Z.eqb_spec x y); subst; try discriminate; try lia
  end.

(** Unfold one layer of the state monad and the operation names given. *)
Ltac st_unfold :=
  unfold run, mbind, mret, St_bind, St_ret in *; simpl in *.
