(* ===== verification/GLEnum.v ===== *)
(** * GLEnum: OpenGL enumerants used by [opengl_error.cpp]

    [GLenum] is [unsigned int] in [GL/gl.h].  Here it is a [Z]: the code
    only compares GLenum values, never computes with them, so their
    32-bit width plays no role.  The GLEW constants are [#define]s, so
    they are abbreviations here, with their values from [GL/glew.h].

    There are two inductive types:
    - [gl_error_code]: the error codes named by the [case] labels of
      [gl_error_string] (lines 36-43).  [GL_NO_ERROR] is left out; it is
      the absence of an error.
    - [fb_status]: the statuses named by the [case] labels of
      [frame_buffer_error] (lines 89-113).
    Each type has an encoding into [GLenum] and a decoding back, with
    decidable equality and a [Finite] instance. *)

From S2P Require Import Prelude.

(** [typedef unsigned int GLenum;] *)
Abbreviation GLenum := Z.

(** ** GLEW constants (values of [GL/glew.h]) *)
Abbreviation GL_NO_ERROR := 0%Z.
Abbreviation GL_INVALID_ENUM := 0x0500%Z.
Abbreviation GL_INVALID_VALUE := 0x0501%Z.
Abbreviation GL_INVALID_OPERATION := 0x0502%Z.
Abbreviation GL_STACK_OVERFLOW := 0x0503%Z.
Abbreviation GL_STACK_UNDERFLOW := 0x0504%Z.
Abbreviation GL_OUT_OF_MEMORY := 0x0505%Z.
Abbreviation GL_INVALID_FRAMEBUFFER_OPERATION_EXT := 0x0506%Z.
Abbreviation GL_CONTEXT_LOST := 0x0507%Z.
Abbreviation GL_TABLE_TOO_LARGE := 0x8031%Z.

Abbreviation GL_FRAMEBUFFER := 0x8D40%Z.
Abbreviation GL_READ_FRAMEBUFFER := 0x8CA8%Z.
Abbreviation GL_DRAW_FRAMEBUFFER := 0x8CA9%Z.

Abbreviation GL_FRAMEBUFFER_COMPLETE := 0x8CD5%Z.
Abbreviation GL_FRAMEBUFFER_UNDEFINED := 0x8219%Z.
Abbreviation GL_FRAMEBUFFER_INCOMPLETE_ATTACHMENT := 0x8CD6%Z.
Abbreviation GL_FRAMEBUFFER_INCOMPLETE_MISSING_ATTACHMENT := 0x8CD7%Z.
Abbreviation GL_FRAMEBUFFER_INCOMPLETE_DRAW_BUFFER := 0x8CDB%Z.
Abbreviation GL_FRAMEBUFFER_INCOMPLETE_READ_BUFFER := 0x8CDC%Z.
Abbreviation GL_FRAMEBUFFER_UNSUPPORTED := 0x8CDD%Z.
Abbreviation GL_FRAMEBUFFER_INCOMPLETE_MULTISAMPLE := 0x8D56%Z.
Abbreviation GL_FRAMEBUFFER_INCOMPLETE_LAYER_TARGETS := 0x8DA8%Z.

(** ** Error codes *)

Inductive gl_error_code :=
  | INVALID_ENUM
  | INVALID_VALUE
  | INVALID_OPERATION
  | OUT_OF_MEMORY
  | STACK_OVERFLOW
  | STACK_UNDERFLOW
  | TABLE_TOO_LARGE
  | INVALID_FRAMEBUFFER_OPERATION_EXT.

#[export] Instance gl_error_code_eq_dec : EqDecision gl_error_code.
Proof. solve_decision. Defined.

Definition gl_error_enum (e : gl_error_code) : GLenum :=
  match e with
  | INVALID_ENUM => GL_INVALID_ENUM
  | INVALID_VALUE => GL_INVALID_VALUE
  | INVALID_OPERATION => GL_INVALID_OPERATION
  | OUT_OF_MEMORY => GL_OUT_OF_MEMORY
  | STACK_OVERFLOW => GL_STACK_OVERFLOW
  | STACK_UNDERFLOW => GL_STACK_UNDERFLOW
  | TABLE_TOO_LARGE => GL_TABLE_TOO_LARGE
  | INVALID_FRAMEBUFFER_OPERATION_EXT => GL_INVALID_FRAMEBUFFER_OPERATION_EXT
  end.

(** The [case] labels of the switch, tested in the source's order. *)
Definition gl_error_of_enum (x : GLenum) : option gl_error_code :=
  if x =? GL_INVALID_ENUM then Some INVALID_ENUM
  else if x =? GL_INVALID_VALUE then Some INVALID_VALUE
  else if x =? GL_INVALID_OPERATION then Some INVALID_OPERATION
  else if x =? GL_OUT_OF_MEMORY then Some OUT_OF_MEMORY
  else if x =? GL_STACK_OVERFLOW then Some STACK_OVERFLOW
  else if x =? GL_STACK_UNDERFLOW then Some STACK_UNDERFLOW
  else if x =? GL_TABLE_TOO_LARGE then Some TABLE_TOO_LARGE
  else if x =? GL_INVALID_FRAMEBUFFER_OPERATION_EXT
    then Some INVALID_FRAMEBUFFER_OPERATION_EXT
  else None.

Definition all_gl_error_codes : list gl_error_code :=
  [INVALID_ENUM; INVALID_VALUE; INVALID_OPERATION; OUT_OF_MEMORY;
   STACK_OVERFLOW; STACK_UNDERFLOW; TABLE_TOO_LARGE;
   INVALID_FRAMEBUFFER_OPERATION_EXT].

#[export] Program Instance gl_error_code_finite : Finite gl_error_code :=
  {| enum := all_gl_error_codes |}.
Next Obligation. apply (bool_decide_unpack _). vm_compute. reflexivity. Qed.
Next Obligation.
  intros e. apply (bool_decide_unpack _). destruct e; vm_compute; reflexivity.
Qed.

(** ** Framebuffer statuses *)

Inductive fb_status :=
  | FRAMEBUFFER_COMPLETE
  | FRAMEBUFFER_UNDEFINED
  | FRAMEBUFFER_INCOMPLETE_ATTACHMENT
  | FRAMEBUFFER_INCOMPLETE_MISSING_ATTACHMENT
  | FRAMEBUFFER_INCOMPLETE_DRAW_BUFFER
  | FRAMEBUFFER_INCOMPLETE_READ_BUFFER
  | FRAMEBUFFER_UNSUPPORTED
  | FRAMEBUFFER_INCOMPLETE_MULTISAMPLE
  | FRAMEBUFFER_INCOMPLETE_LAYER_TARGETS.

#[export] Instance fb_status_eq_dec : EqDecision fb_status.
Proof. solve_decision. Defined.

Definition fb_status_enum (s : fb_status) : GLenum :=
  match s with
  | FRAMEBUFFER_COMPLETE => GL_FRAMEBUFFER_COMPLETE
  | FRAMEBUFFER_UNDEFINED => GL_FRAMEBUFFER_UNDEFINED
  | FRAMEBUFFER_INCOMPLETE_ATTACHMENT => GL_FRAMEBUFFER_INCOMPLETE_ATTACHMENT
  | FRAMEBUFFER_INCOMPLETE_MISSING_ATTACHMENT =>
      GL_FRAMEBUFFER_INCOMPLETE_MISSING_ATTACHMENT
  | FRAMEBUFFER_INCOMPLETE_DRAW_BUFFER => GL_FRAMEBUFFER_INCOMPLETE_DRAW_BUFFER
  | FRAMEBUFFER_INCOMPLETE_READ_BUFFER => GL_FRAMEBUFFER_INCOMPLETE_READ_BUFFER
  | FRAMEBUFFER_UNSUPPORTED => GL_FRAMEBUFFER_UNSUPPORTED
  | FRAMEBUFFER_INCOMPLETE_MULTISAMPLE => GL_FRAMEBUFFER_INCOMPLETE_MULTISAMPLE
  | FRAMEBUFFER_INCOMPLETE_LAYER_TARGETS =>
      GL_FRAMEBUFFER_INCOMPLETE_LAYER_TARGETS
  end.

Definition fb_status_of_enum (x : GLenum) : option fb_status :=
  if x =? GL_FRAMEBUFFER_COMPLETE then Some FRAMEBUFFER_COMPLETE
  else if x =? GL_FRAMEBUFFER_UNDEFINED then Some FRAMEBUFFER_UNDEFINED
  else if x =? GL_FRAMEBUFFER_INCOMPLETE_ATTACHMENT
    then Some FRAMEBUFFER_INCOMPLETE_ATTACHMENT
  else if x =? GL_FRAMEBUFFER_INCOMPLETE_MISSING_ATTACHMENT
    then Some FRAMEBUFFER_INCOMPLETE_MISSING_ATTACHMENT
  else if x =? GL_FRAMEBUFFER_INCOMPLETE_DRAW_BUFFER
    then Some FRAMEBUFFER_INCOMPLETE_DRAW_BUFFER
  else if x =? GL_FRAMEBUFFER_INCOMPLETE_READ_BUFFER
    then Some FRAMEBUFFER_INCOMPLETE_READ_BUFFER
  else if x =? GL_FRAMEBUFFER_UNSUPPORTED then Some FRAMEBUFFER_UNSUPPORTED
  else if x =? GL_FRAMEBUFFER_INCOMPLETE_MULTISAMPLE
    then Some FRAMEBUFFER_INCOMPLETE_MULTISAMPLE
  else if x =? GL_FRAMEBUFFER_INCOMPLETE_LAYER_TARGETS
    then Some FRAMEBUFFER_INCOMPLETE_LAYER_TARGETS
  else None.

Definition all_fb_statuses : list fb_status :=
  [FRAMEBUFFER_COMPLETE; FRAMEBUFFER_UNDEFINED;
   FRAMEBUFFER_INCOMPLETE_ATTACHMENT; FRAMEBUFFER_INCOMPLETE_MISSING_ATTACHMENT;
   FRAMEBUFFER_INCOMPLETE_DRAW_BUFFER; FRAMEBUFFER_INCOMPLETE_READ_BUFFER;
   FRAMEBUFFER_UNSUPPORTED; FRAMEBUFFER_INCOMPLETE_MULTISAMPLE;
   FRAMEBUFFER_INCOMPLETE_LAYER_TARGETS].

#[export] Program Instance fb_status_finite : Finite fb_status :=
  {| enum := all_fb_statuses |}.
Next Obligation. apply (bool_decide_unpack _). vm_compute. reflexivity. Qed.
Next Obligation.
  intros s. apply (bool_decide_unpack _). destruct s; vm_compute; reflexivity.
Qed.

(** ** Lemmas *)

Lemma gl_error_enum_nonzero (e : gl_error_code) :
  gl_error_enum e <> GL_NO_ERROR.
Proof. by destruct e. Qed.

#[export] Hint Resolve gl_error_enum_nonzero : easy3d.

