(* ===== verification/OStream.v ===== *)
(** * OStream: [std::cerr] as the reporter uses it

    The stream is modelled by the text written to it so far.  [operator<<]
    on a string appends the string.  On an [int] it appends the decimal
    form: a minus sign for negative values, and no leading zeros.
    [std::endl] appends a newline; the flush it also does is not
    observable in this model.  The decimal form is the Standard
    Library's [DecimalString], and parsing it gives the integer back. *)

From Stdlib Require Import Ascii DecimalString DecimalZ.
From S2P Require Import Prelude.

Module OStream.

(** [os << s] for a string [s]. *)
Definition os_write (s : string) : St string unit :=
  fun out => (tt, (out +s+ s)%e3d).

(** The characters [os << n] writes for an [int n]. *)
Definition int_to_dec (n : Z) : string :=
  NilEmpty.string_of_int (Z.to_int n).

(** [os << n] for an [int n]. *)
Definition os_int (n : Z) : St string unit := os_write (int_to_dec n).

Definition newline : string := String "010"%char EmptyString.

(** [os << std::endl]. *)
Definition os_endl : St string unit := os_write newline.

(** Reading a decimal integer back. *)
Definition dec_to_int (s : string) : option Z :=
  Z.of_int <$> NilEmpty.int_of_string s.

Lemma os_write_run (s out : string) :
  run (os_write s) out = (tt, (out +s+ s)%e3d).
Proof. reflexivity. Qed.

(** Two writes in a row append both strings in order. *)
Lemma os_write_seq (a b out : string) :
  run (os_write a ;; os_write b) out = (tt, (out +s+ a +s+ b)%e3d).
Proof. unfold os_write. st_unfold. by rewrite string_app_assoc. Qed.

(** Printing an [int] and parsing the text gives the same integer. *)
Theorem dec_to_int_to_dec (n : Z) : dec_to_int (int_to_dec n) = Some n.
Proof.
  unfold dec_to_int, int_to_dec. rewrite NilEmpty.isi. simpl. by rewrite DecimalZ.of_to.
Qed.

End OStream.
