(* ===== verification/GLContext.v ===== *)
(** * GLContext: what the reporter needs from OpenGL

    The reporter calls two functions of the GL context: [glGetError] and
    [glCheckFramebufferStatus(GL_FRAMEBUFFER)].  The interface is the
    class [GLContext], and the contract the reporter relies on is the
    class [GLContextLaws]:
    - With no pending error, [glGetError] returns [GL_NO_ERROR] and
      changes nothing.
    - Otherwise it returns one pending error, which is one of the values
      OpenGL defines, and clears it.
    - The status query on [GL_FRAMEBUFFER] changes nothing, and reading
      an error does not change that status.

    The implementation [FlagCtx] follows the OpenGL specification (4.6
    core, section 2.3.1).  The context has several error flags.  An
    error sets a flag only if that flag is clear.  [glGetError] returns
    the value of a set flag and clears it.  The model takes the first
    set flag; the specification lets the choice be arbitrary.
    [glCheckFramebufferStatus] returns the status of the framebuffer
    bound to the target.  On an unknown target it records
    [GL_INVALID_ENUM] and returns 0.

    The step relation [gl_step] is the context as the rest of the
    program drives it: operations fail and record errors, framebuffers
    are bound, and the two queries run.  Every reachable state is
    well formed, and [FlagCtx] satisfies [GLContextLaws]. *)

From S2P Require Import Prelude GLEnum.

(** The values [glGetError] may return besides [GL_NO_ERROR]: the codes
    of [gl_error_code] and [GL_CONTEXT_LOST] (OpenGL 4.5 and later). *)
Definition gl_error_value (x : GLenum) : bool :=
  bool_decide (is_Some (gl_error_of_enum x)) || (x =? GL_CONTEXT_LOST).

Lemma gl_error_value_nonzero (x : GLenum) :
  gl_error_value x = true -> x <> GL_NO_ERROR.
Proof. intros H ->. by vm_compute in H. Qed.

#[export] Hint Resolve gl_error_value_nonzero : easy3d.

Class GLContext (C : Type) := {
  glGetError : St C GLenum;
  glCheckFramebufferStatus : GLenum -> St C GLenum;
}.

Class GLContextLaws (C : Type) `{!GLContext C} := {
  gl_wf : C -> Prop;
  gl_pending : C -> nat;
  gl_fb_status : C -> GLenum;
  glGetError_none (c : C) :
    gl_wf c -> gl_pending c = 0%nat -> run glGetError c = (GL_NO_ERROR, c);
  glGetError_some (c : C) :
    gl_wf c -> (0 < gl_pending c)%nat ->
    gl_error_value (run glGetError c).1 = true /\
    gl_pending (run glGetError c).2 = pred (gl_pending c);
  glGetError_wf (c : C) : gl_wf c -> gl_wf (run glGetError c).2;
  glGetError_fb (c : C) :
    gl_wf c -> gl_fb_status (run glGetError c).2 = gl_fb_status c;
  glCheckFramebufferStatus_fb (c : C) :
    gl_wf c -> run (glCheckFramebufferStatus GL_FRAMEBUFFER) c = (gl_fb_status c, c);
}.

Module FlagCtx.

Record flag_ctx := mk_ctx {
  flags : list GLenum;
  draw_status : GLenum;
  read_status : GLenum;
}.

(** The first set flag, with its index. *)
Fixpoint first_flag (fl : list GLenum) : option (nat * GLenum) :=
  match fl with
  | [] => None
  | f :: fl' =>
      if f =? GL_NO_ERROR then (fun '(i, e) => (S i, e)) <$> first_flag fl'
      else Some (0%nat, f)
  end.

Definition with_flags (fl : list GLenum) (c : flag_ctx) : flag_ctx :=
  mk_ctx fl (draw_status c) (read_status c).

(** An error [e] detected by the part of the GL owning flag [i]. *)
Definition set_error (i : nat) (e : GLenum) (c : flag_ctx) : flag_ctx :=
  match flags c !! i with
  | Some f => if f =? GL_NO_ERROR then with_flags (<[i := e]> (flags c)) c else c
  | None => c
  end.

Definition ctx_glGetError : St flag_ctx GLenum := fun c =>
  match first_flag (flags c) with
  | Some (i, e) => (e, with_flags (<[i := GL_NO_ERROR]> (flags c)) c)
  | None => (GL_NO_ERROR, c)
  end.

Definition ctx_glCheckFramebufferStatus (target : GLenum) : St flag_ctx GLenum :=
  fun c =>
    if (target =? GL_DRAW_FRAMEBUFFER) || (target =? GL_FRAMEBUFFER)
    then (draw_status c, c)
    else if target =? GL_READ_FRAMEBUFFER then (read_status c, c)
    else (0, set_error 0 GL_INVALID_ENUM c).

Definition pending (c : flag_ctx) : nat :=
  length (filter (fun f => f <> GL_NO_ERROR) (flags c)).

Definition flag_ok (f : GLenum) : Prop := f = GL_NO_ERROR \/ gl_error_value f = true.

Definition ctx_wf (c : flag_ctx) : Prop := Forall flag_ok (flags c).

#[export] Instance flag_ok_dec (f : GLenum) : Decision (flag_ok f).
Proof. unfold flag_ok. apply _. Defined.

#[export] Instance ctx_wf_dec (c : flag_ctx) : Decision (ctx_wf c).
Proof. unfold ctx_wf. apply _. Defined.

(** A fresh context with [n] clear flags and complete framebuffers. *)
Definition init_ctx (n : nat) : flag_ctx :=
  mk_ctx (replicate n GL_NO_ERROR) GL_FRAMEBUFFER_COMPLETE GL_FRAMEBUFFER_COMPLETE.

Inductive gl_step : flag_ctx -> flag_ctx -> Prop :=
  | step_error c i e :
      gl_error_value e = true -> gl_step c (set_error i e c)
  | step_bind_draw c s : gl_step c (mk_ctx (flags c) s (read_status c))
  | step_bind_read c s : gl_step c (mk_ctx (flags c) (draw_status c) s)
  | step_get_error c : gl_step c (ctx_glGetError c).2
  | step_check_fb c t : gl_step c (ctx_glCheckFramebufferStatus t c).2.

Definition reachable (n : nat) (c : flag_ctx) : Prop := rtc gl_step (init_ctx n) c.

#[export] Instance flag_ctx_gl : GLContext flag_ctx :=
  {| glGetError := ctx_glGetError;
     glCheckFramebufferStatus := ctx_glCheckFramebufferStatus |}.

(** ** The flag array *)

Lemma first_flag_some (fl : list GLenum) (i : nat) (e : GLenum) :
  first_flag fl = Some (i, e) -> fl !! i = Some e /\ e <> GL_NO_ERROR.
Proof.
  revert i. induction fl as [|f fl IH]; intros i H; simpl in H; [done|].
  case_code.
  - destruct (first_flag fl) as [[j e']|] eqn:Hf; simpl in H; [|done].
    injection H as <- <-. by apply IH.
  - by injection H as <- <-.
Qed.

Lemma first_flag_none (fl : list GLenum) :
  first_flag fl = None -> filter (fun f => f <> GL_NO_ERROR) fl = [].
Proof.
  induction fl as [|f fl IH]; intros H; simpl in H; [done|].
  case_code.
  - rewrite filter_cons_False; [|tauto]. apply IH.
    by destruct (first_flag fl) as [[]|].
Qed.

(** Clearing a set flag removes exactly one pending error. *)
Lemma filter_clear_flag (fl : list GLenum) (i : nat) (e : GLenum) :
  fl !! i = Some e -> e <> GL_NO_ERROR ->
  length (filter (fun f => f <> GL_NO_ERROR) (<[i := GL_NO_ERROR]> fl)) =
  pred (length (filter (fun f => f <> GL_NO_ERROR) fl)).
Proof.
  revert i. induction fl as [|f fl IH]; intros [|i] Hl He; simpl in Hl; [done..| |].
  - injection Hl as ->. simpl.
    rewrite filter_cons_False, filter_cons_True by tauto. done.
  - change (<[S i := GL_NO_ERROR]> (f :: fl)) with (f :: <[i := GL_NO_ERROR]> fl).
    rewrite !filter_cons.
    case_decide; rewrite ?length_cons, (IH i Hl He); [|done].
    assert (0 < length (filter (fun f => f <> GL_NO_ERROR) fl))%nat; [|lia].
    apply list_elem_of_lookup_2 in Hl.
    destruct (filter (fun f => f <> GL_NO_ERROR) fl) eqn:Hfl; [|simpl; lia].
    exfalso. assert (e ∈ filter (fun f => f <> GL_NO_ERROR) fl) as Hin
      by (apply list_elem_of_filter; auto).
    rewrite Hfl in Hin. set_solver.
Qed.

Lemma pending_zero (c : flag_ctx) :
  pending c = 0%nat -> first_flag (flags c) = None.
Proof.
  unfold pending. intros H.
  destruct (first_flag (flags c)) as [[i e]|] eqn:Hf; [|done].
  apply first_flag_some in Hf as [Hl He]. exfalso.
  assert (e ∈ filter (fun f => f <> GL_NO_ERROR) (flags c)) as Hin
    by (apply list_elem_of_filter; split; [done | by eapply list_elem_of_lookup_2]).
  apply length_zero_iff_nil in H. rewrite H in Hin. set_solver.
Qed.

Lemma set_error_wf (c : flag_ctx) (i : nat) (e : GLenum) :
  ctx_wf c -> gl_error_value e = true -> ctx_wf (set_error i e c).
Proof.
  unfold ctx_wf, set_error. intros Hc He.
  destruct (flags c !! i); [|done]. case_code; [|done].
  apply Forall_insert; [done | by right].
Qed.

(** Reading the first set flag takes the head of the pending errors, in
    flag order. *)
Lemma first_flag_filter (fl : list GLenum) (i : nat) (e : GLenum) :
  first_flag fl = Some (i, e) ->
  filter (fun f => f <> GL_NO_ERROR) fl =
  e :: filter (fun f => f <> GL_NO_ERROR) (<[i := GL_NO_ERROR]> fl).
Proof.
  revert i. induction fl as [|f fl IH]; intros i H; simpl in H; [done|].
  case_code.
  - destruct (first_flag fl) as [[j e']|] eqn:Hf; simpl in H; [|done].
    injection H as <- <-.
    change (<[S j := GL_NO_ERROR]> (GL_NO_ERROR :: fl)) with
      (GL_NO_ERROR :: <[j := GL_NO_ERROR]> fl).
    rewrite (filter_cons_False _ GL_NO_ERROR fl),
      (filter_cons_False _ GL_NO_ERROR (<[j := GL_NO_ERROR]> fl)) by lia.
    by apply IH.
  - injection H as <- <-.
    change (<[0 := GL_NO_ERROR]> (f :: fl)) with (GL_NO_ERROR :: fl).
    rewrite (filter_cons_True _ f fl), (filter_cons_False _ GL_NO_ERROR fl) by lia.
    done.
Qed.

(** Reading any set flag takes one of the pending errors: what remains
    is the others, in some order. *)
Lemma filter_clear_perm (fl : list GLenum) (i : nat) (e : GLenum) :
  fl !! i = Some e -> e <> GL_NO_ERROR ->
  filter (fun f => f <> GL_NO_ERROR) fl ≡ₚ
  e :: filter (fun f => f <> GL_NO_ERROR) (<[i := GL_NO_ERROR]> fl).
Proof.
  revert i. induction fl as [|f fl IH]; intros [|i] Hl He; simpl in Hl; [done..| |].
  - injection Hl as ->.
    change (<[0 := GL_NO_ERROR]> (e :: fl)) with (GL_NO_ERROR :: fl).
    rewrite (filter_cons_True _ e fl), (filter_cons_False _ GL_NO_ERROR fl) by lia.
    done.
  - change (<[S i := GL_NO_ERROR]> (f :: fl)) with (f :: <[i := GL_NO_ERROR]> fl).
    rewrite !filter_cons. case_decide; [|by apply IH].
    rewrite (IH i Hl He). apply perm_swap.
Qed.

(** With no error pending, every flag is clear. *)
Lemma pending_zero_flags (c : flag_ctx) :
  pending c = 0%nat -> flags c = replicate (length (flags c)) GL_NO_ERROR.
Proof.
  unfold pending. intros H. apply length_zero_iff_nil in H.
  induction (flags c) as [|f fl IH]; [done|].
  rewrite filter_cons in H. case_decide; [done|]. simpl. f_equal; [lia | by apply IH].
Qed.

(** ** Invariant: every flag is clear or holds an OpenGL error value *)

Lemma ctx_glGetError_wf (c : flag_ctx) : ctx_wf c -> ctx_wf (ctx_glGetError c).2.
Proof.
  unfold ctx_glGetError, ctx_wf. intros Hc.
  destruct (first_flag (flags c)) as [[i e]|]; [|done].
  apply Forall_insert; [done | by left].
Qed.

Lemma gl_step_wf (c c' : flag_ctx) : gl_step c c' -> ctx_wf c -> ctx_wf c'.
Proof.
  destruct 1 as [c i e He|c s|c s|c|c t]; intros Hc.
  - by apply set_error_wf.
  - done.
  - done.
  - by apply ctx_glGetError_wf.
  - unfold ctx_glCheckFramebufferStatus.
    destruct (_ || _); [done|]. case_code; [done|].
    by apply set_error_wf.
Qed.

Lemma gl_steps_wf (c c' : flag_ctx) : rtc gl_step c c' -> ctx_wf c -> ctx_wf c'.
Proof. induction 1; eauto using gl_step_wf. Qed.

(** Every state reachable from a fresh context is well formed. *)
Theorem reachable_wf (n : nat) (c : flag_ctx) : reachable n c -> ctx_wf c.
Proof.
  intros Hr. apply (gl_steps_wf _ _ Hr). apply Forall_replicate. by left.
Qed.

(** ** Refinement of the OpenGL specification of [glGetError]

    The specification leaves open which set flag is read when several
    are set.  [glGetError_spec] is that nondeterministic contract: with
    no flag set, return [GL_NO_ERROR] and change nothing; otherwise
    return the value of some set flag and clear that flag. *)
Definition glGetError_spec (c : flag_ctx) (e : GLenum) (c' : flag_ctx) : Prop :=
  (pending c = 0%nat /\ e = GL_NO_ERROR /\ c' = c) \/
  (exists i, flags c !! i = Some e /\ e <> GL_NO_ERROR /\
     c' = with_flags (<[i := GL_NO_ERROR]> (flags c)) c).

(** The deterministic [ctx_glGetError] is one of the behaviours the
    OpenGL specification allows. *)
Theorem ctx_glGetError_refines (c c' : flag_ctx) (e : GLenum) :
  ctx_glGetError c = (e, c') -> glGetError_spec c e c'.
Proof.
  unfold ctx_glGetError, glGetError_spec. intros H.
  destruct (first_flag (flags c)) as [[i e0]|] eqn:Hf; injection H as <- <-.
  - right. exists i. apply first_flag_some in Hf as [Hl He]. done.
  - left. unfold pending. by rewrite first_flag_none.
Qed.

(** ** [FlagCtx] satisfies the contract *)

#[export] Program Instance flag_ctx_laws : GLContextLaws flag_ctx :=
  {| gl_wf := ctx_wf; gl_pending := pending; gl_fb_status := draw_status |}.
Next Obligation.
  intros c _ H. simpl. unfold run, ctx_glGetError. by rewrite pending_zero.
Qed.
Next Obligation.
  intros c Hc Hp. simpl. unfold run, ctx_glGetError.
  destruct (first_flag (flags c)) as [[i e]|] eqn:Hf.
  - apply first_flag_some in Hf as [Hl He]. simpl. split.
    + destruct (Forall_lookup_1 _ _ _ _ Hc Hl); done.
    + unfold pending. simpl. by apply (filter_clear_flag _ i e).
  - unfold pending in Hp. apply first_flag_none in Hf. rewrite Hf in Hp. simpl in Hp. lia.
Qed.
Next Obligation. intros c Hc. by apply ctx_glGetError_wf. Qed.
Next Obligation.
  intros c _. simpl. unfold run, ctx_glGetError.
  by destruct (first_flag (flags c)) as [[]|].
Qed.
Next Obligation. intros c _. reflexivity. Qed.

(** ** Witnesses *)

Definition ctx_two_errors : flag_ctx :=
  mk_ctx [GL_NO_ERROR; GL_INVALID_VALUE; GL_OUT_OF_MEMORY]
    GL_FRAMEBUFFER_COMPLETE GL_FRAMEBUFFER_COMPLETE.

Lemma ctx_glGetError_refines_witness :
  ctx_glGetError ctx_two_errors = (GL_INVALID_VALUE,
     mk_ctx [GL_NO_ERROR; GL_NO_ERROR; GL_OUT_OF_MEMORY]
       GL_FRAMEBUFFER_COMPLETE GL_FRAMEBUFFER_COMPLETE) /\
  glGetError_spec ctx_two_errors GL_INVALID_VALUE
     (mk_ctx [GL_NO_ERROR; GL_NO_ERROR; GL_OUT_OF_MEMORY]
       GL_FRAMEBUFFER_COMPLETE GL_FRAMEBUFFER_COMPLETE).
Proof.
  split; [reflexivity|]. apply ctx_glGetError_refines. reflexivity.
Defined.

(** Two flags; an [GL_INVALID_VALUE] is recorded in flag 1. *)
Lemma reachable_wf_witness :
  reachable 2 (set_error 1 GL_INVALID_VALUE (init_ctx 2)) /\
  ctx_wf (set_error 1 GL_INVALID_VALUE (init_ctx 2)).
Proof.
  assert (reachable 2 (set_error 1 GL_INVALID_VALUE (init_ctx 2))) as Hr.
  { apply rtc_once. apply step_error. vm_compute. reflexivity. }
  split; [exact Hr|]. apply (reachable_wf 2). exact Hr.
Defined.

End FlagCtx.
