(* ===== verification/ErrorString.v ===== *)
(** * ErrorString: [gl_error_string] (opengl_error.cpp, lines 32-46)

    The source maps an error code to a C string with a [switch].  The
    model tests the case labels in the source's order and returns a
    nullable C string ([c_str]).  The spec (design note 9) describes the
    same mapping as a static table, [gl_error_table].  The switch is
    proved equal to a lookup in that table, with "Unknown error" for
    codes the table lacks.  The switch never returns the null pointer, so
    the [if (str)] guards of [check_gl_error] and [gl_error] always
    pass. *)

From S2P Require Import Prelude GLEnum.

Module ErrorString.

(** [inline const char* gl_error_string(GLenum code)] *)
Definition gl_error_string (code : GLenum) : c_str :=
  if code =? GL_NO_ERROR then Some "No error"
  else if code =? GL_INVALID_ENUM then Some "Invalid enum"
  else if code =? GL_INVALID_VALUE then Some "Invalid value"
  else if code =? GL_INVALID_OPERATION then Some "Invalid operation"
  else if code =? GL_OUT_OF_MEMORY then Some "Out of memory"
  else if code =? GL_STACK_OVERFLOW then Some "Stack overflow"
  else if code =? GL_STACK_UNDERFLOW then Some "Stack underflow"
  else if code =? GL_TABLE_TOO_LARGE then Some "Table too large"
  else if code =? GL_INVALID_FRAMEBUFFER_OPERATION_EXT
    then Some "Invalid framebuffer operation"
  else Some "Unknown error".

(** The text of each case of the switch, per error code. *)
Definition gl_error_text (e : gl_error_code) : string :=
  match e with
  | INVALID_ENUM => "Invalid enum"
  | INVALID_VALUE => "Invalid value"
  | INVALID_OPERATION => "Invalid operation"
  | OUT_OF_MEMORY => "Out of memory"
  | STACK_OVERFLOW => "Stack overflow"
  | STACK_UNDERFLOW => "Stack underflow"
  | TABLE_TOO_LARGE => "Table too large"
  | INVALID_FRAMEBUFFER_OPERATION_EXT => "Invalid framebuffer operation"
  end.

(** The static table of design note 9: [GL_NO_ERROR] and every error
    code with its text. *)
Definition gl_error_table : list (GLenum * string) :=
  (GL_NO_ERROR, "No error") ::
  map (fun e => (gl_error_enum e, gl_error_text e)) all_gl_error_codes.

Definition describe_error (code : GLenum) : string :=
  default "Unknown error" (assoc_Z code gl_error_table).

(** ** Theorems *)

(** The switch is the table lookup, on every code. *)
Lemma gl_error_string_describe (code : GLenum) :
  gl_error_string code = Some (describe_error code).
Proof.
  unfold gl_error_string, describe_error, gl_error_table; simpl.
  case_code; reflexivity.
Qed.

(** C13: gl_error_string never returns a null pointer, so the if (str)
    guards of check_gl_error and gl_error always pass. *)
Lemma gl_error_string_not_null (code : GLenum) : gl_error_string code <> None.
Proof. by rewrite gl_error_string_describe. Qed.

(** C11: gl_error_string returns Unknown error for every nonzero code
    outside the switch's cases. *)
Lemma gl_error_string_unknown (code : GLenum) :
  code <> GL_NO_ERROR -> gl_error_of_enum code = None ->
  gl_error_string code = Some "Unknown error".
Proof.
  unfold gl_error_string, gl_error_of_enum. intros Hz Hn.
  case_code; reflexivity.
Qed.

Lemma describe_error_decoded (code : GLenum) (e : gl_error_code) :
  gl_error_of_enum code = Some e -> describe_error code = gl_error_text e.
Proof.
  unfold describe_error, gl_error_of_enum, gl_error_table. simpl. intros H.
  case_code; by injection H as <-.
Qed.

(** C12: Distinct error codes get distinct texts, so a report identifies
    its error. *)
Lemma gl_error_text_inj (e1 e2 : gl_error_code) :
  gl_error_text e1 = gl_error_text e2 -> e1 = e2.
Proof. destruct e1, e2; simpl; congruence. Qed.

(** ** Witnesses *)

Lemma gl_error_string_unknown_witness :
  GL_CONTEXT_LOST <> GL_NO_ERROR /\ gl_error_of_enum GL_CONTEXT_LOST = None /\
  gl_error_string GL_CONTEXT_LOST = Some "Unknown error".
Proof.
  split; [lia|]. split; [reflexivity|].
  apply gl_error_string_unknown; [lia | reflexivity].
Defined.

Lemma gl_error_text_inj_witness :
  gl_error_text OUT_OF_MEMORY = gl_error_text OUT_OF_MEMORY /\
  OUT_OF_MEMORY = OUT_OF_MEMORY.
Proof.
  split; [reflexivity|]. apply gl_error_text_inj. reflexivity.
Defined.

End ErrorString.
