(* ===== verification/Reporter.v ===== *)
(** * Reporter: the four entry points of [opengl_error.cpp]

    The state of the program is a [world]: the GL context and the text
    written to [std::cerr].  Each entry point is a state-monad action on
    the world.  Each model follows its C++ body: the call to the GL
    context, the tests in the source's order, the writes to [std::cerr],
    and the value returned.  A C++ out-parameter [std::string& log] is an
    argument holding its value on entry, and a result holding its value
    on return.

    The Section [Reporter] is written against the [GLContext] interface.
    The theorems of the Section [Laws] assume only the contract
    [GLContextLaws].  The file ends with instances of those theorems for
    the flag-array context [FlagCtx]. *)

From S2P Require Import Prelude GLEnum OStream GLContext ErrorString.
Import OStream ErrorString.

Record world (C : Type) := mk_world { w_gl : C; w_cerr : string }.
Arguments mk_world {C} _ _.
Arguments w_gl {C} _.
Arguments w_cerr {C} _.

Section Reporter.
Context {C : Type} `{!GLContext C}.

(** A GL call, leaving [std::cerr] alone. *)
Definition on_gl {A} (m : St C A) : St (world C) A := fun w =>
  let '(a, g) := m (w_gl w) in (a, mk_world g (w_cerr w)).

(** A write to [std::cerr], leaving the GL context alone. *)
Definition on_cerr {A} (m : St string A) : St (world C) A := fun w =>
  let '(a, o) := m (w_cerr w) in (a, mk_world (w_gl w) o).

(** Line 54: [std::cerr << "GL error in file \'" << file << "\' @ line "
    << line << ": " << str << std::endl;] *)
Definition gl_error_report (file : string) (line : Z) (str : string)
    : St string unit :=
  os_write "GL error in file '";; os_write file;; os_write "' @ line ";;
  os_int line;; os_write ": ";; os_write str;; os_endl.

(** [bool check_gl_error(const std::string& file, int line)] *)
Definition check_gl_error (file : string) (line : Z) : St (world C) bool :=
  error_code ← on_gl glGetError;
  if negb (error_code =? GL_NO_ERROR) then
    match gl_error_string error_code with
    | Some str => on_cerr (gl_error_report file line str);; mret false
    | None => mret true
    end
  else mret true.

(** [bool gl_error(std::string& log)]: the result and the final [log]. *)
Definition gl_error (log : string) : St (world C) (bool * string) :=
  error_code ← on_gl glGetError;
  if negb (error_code =? GL_NO_ERROR) then
    match gl_error_string error_code with
    | Some str => mret (true, str)
    | None => mret (true, log)
    end
  else mret (false, log).

(** [bool frame_buffer_error(std::string& log)]: the result and the final
    [log].  The [case GL_FRAMEBUFFER_COMPLETE] returns [true] before the
    final [return false]; every other case sets [log] and breaks. *)
Definition frame_buffer_error (log : string) : St (world C) (bool * string) :=
  Status ← on_gl (glCheckFramebufferStatus GL_FRAMEBUFFER);
  if Status =? GL_FRAMEBUFFER_COMPLETE then mret (true, log)
  else if Status =? GL_FRAMEBUFFER_UNDEFINED then
    mret (false, "GL_FRAMEBUFFER_UNDEFINED")
  else if Status =? GL_FRAMEBUFFER_INCOMPLETE_ATTACHMENT then
    mret (false, "GL_FRAMEBUFFER_INCOMPLETE_ATTACHMENT")
  else if Status =? GL_FRAMEBUFFER_INCOMPLETE_MISSING_ATTACHMENT then
    mret (false, "GL_FRAMEBUFFER_INCOMPLETE_MISSING_ATTACHMENT")
  else if Status =? GL_FRAMEBUFFER_INCOMPLETE_DRAW_BUFFER then
    mret (false, "GL_FRAMEBUFFER_INCOMPLETE_DRAW_BUFFER")
  else if Status =? GL_FRAMEBUFFER_INCOMPLETE_READ_BUFFER then
    mret (false, "GL_FRAMEBUFFER_INCOMPLETE_READ_BUFFER")
  else if Status =? GL_FRAMEBUFFER_UNSUPPORTED then
    mret (false, "GL_FRAMEBUFFER_UNSUPPORTED")
  else if Status =? GL_FRAMEBUFFER_INCOMPLETE_MULTISAMPLE then
    mret (false, "GL_FRAMEBUFFER_INCOMPLETE_MULTISAMPLE")
  else if Status =? GL_FRAMEBUFFER_INCOMPLETE_LAYER_TARGETS then
    mret (false, "GL_FRAMEBUFFER_INCOMPLETE_LAYER_TARGETS")
  else mret (false, "unknown error").

(** Line 77: [std::cerr << "framebuffer error in file \'" << file
    << "\' @ line " << line << ": " << msg << std::endl;] *)
Definition fb_error_report (file : string) (line : Z) (msg : string)
    : St string unit :=
  os_write "framebuffer error in file '";; os_write file;;
  os_write "' @ line ";; os_int line;; os_write ": ";; os_write msg;; os_endl.

(** [bool check_frame_buffer_error(const std::string& file, int line)]:
    [msg] starts empty, and [&&] evaluates [frame_buffer_error] first. *)
Definition check_frame_buffer_error (file : string) (line : Z)
    : St (world C) bool :=
  '(r, msg) ← frame_buffer_error "";
  if r && negb (String.eqb msg "") then
    on_cerr (fb_error_report file line msg);; mret false
  else mret true.

(** ** The text each report writes *)

Definition gl_error_msg (file : string) (line : Z) (str : string) : string :=
  ("GL error in file '" +s+ file +s+ "' @ line " +s+ int_to_dec line +s+ ": "
   +s+ str +s+ newline)%e3d.

Definition fb_error_msg (file : string) (line : Z) (msg : string) : string :=
  ("framebuffer error in file '" +s+ file +s+ "' @ line " +s+ int_to_dec line
   +s+ ": " +s+ msg +s+ newline)%e3d.

(** The status name [frame_buffer_error] stores for each status. *)
Definition fb_status_name (s : fb_status) : string :=
  match s with
  | FRAMEBUFFER_COMPLETE => "GL_FRAMEBUFFER_COMPLETE"
  | FRAMEBUFFER_UNDEFINED => "GL_FRAMEBUFFER_UNDEFINED"
  | FRAMEBUFFER_INCOMPLETE_ATTACHMENT => "GL_FRAMEBUFFER_INCOMPLETE_ATTACHMENT"
  | FRAMEBUFFER_INCOMPLETE_MISSING_ATTACHMENT =>
      "GL_FRAMEBUFFER_INCOMPLETE_MISSING_ATTACHMENT"
  | FRAMEBUFFER_INCOMPLETE_DRAW_BUFFER => "GL_FRAMEBUFFER_INCOMPLETE_DRAW_BUFFER"
  | FRAMEBUFFER_INCOMPLETE_READ_BUFFER => "GL_FRAMEBUFFER_INCOMPLETE_READ_BUFFER"
  | FRAMEBUFFER_UNSUPPORTED => "GL_FRAMEBUFFER_UNSUPPORTED"
  | FRAMEBUFFER_INCOMPLETE_MULTISAMPLE => "GL_FRAMEBUFFER_INCOMPLETE_MULTISAMPLE"
  | FRAMEBUFFER_INCOMPLETE_LAYER_TARGETS =>
      "GL_FRAMEBUFFER_INCOMPLETE_LAYER_TARGETS"
  end.

Definition fb_status_message (x : GLenum) : string :=
  match fb_status_of_enum x with
  | Some s => fb_status_name s
  | None => "unknown error"
  end.

Lemma gl_error_report_run (file str out : string) (line : Z) :
  run (gl_error_report file line str) out =
  (tt, (out +s+ gl_error_msg file line str)%e3d).
Proof.
  unfold gl_error_report, gl_error_msg, os_int, os_endl, os_write.
  st_unfold. by autorewrite with easy3d_rw.
Qed.

Lemma on_gl_run {A} (m : St C A) (w : world C) :
  run (on_gl m) w = ((run m (w_gl w)).1, mk_world (run m (w_gl w)).2 (w_cerr w)).
Proof. unfold on_gl, run. by destruct (m (w_gl w)). Qed.

Lemma on_cerr_run {A} (m : St string A) (w : world C) :
  run (on_cerr m) w = ((run m (w_cerr w)).1, mk_world (w_gl w) (run m (w_cerr w)).2).
Proof. unfold on_cerr, run. by destruct (m (w_cerr w)). Qed.

(** What one [glGetError] call returns, and the world it leaves. *)
Definition gl_err (w : world C) : GLenum := (run glGetError (w_gl w)).1.
Definition gl_after (w : world C) : world C :=
  mk_world (run glGetError (w_gl w)).2 (w_cerr w).

(** [check_gl_error] on any context: one [glGetError], then either
    [true] or one report line and [false]. *)
Lemma check_gl_error_eq (w : world C) (file : string) (line : Z) :
  run (check_gl_error file line) w =
  if gl_err w =? GL_NO_ERROR then (true, gl_after w)
  else (false, mk_world (w_gl (gl_after w))
                 (w_cerr w +s+ gl_error_msg file line (describe_error (gl_err w)))%e3d).
Proof.
  unfold check_gl_error. rewrite st_bind_run, on_gl_run. fold (gl_err w).
  destruct (gl_err w =? GL_NO_ERROR); cbn [negb]; [reflexivity|].
  rewrite gl_error_string_describe.
  by rewrite st_bind_run, on_cerr_run, gl_error_report_run.
Qed.

Lemma gl_error_eq (w : world C) (log : string) :
  run (gl_error log) w =
  if gl_err w =? GL_NO_ERROR then ((false, log), gl_after w)
  else ((true, describe_error (gl_err w)), gl_after w).
Proof.
  unfold gl_error. rewrite st_bind_run, on_gl_run. fold (gl_err w).
  destruct (gl_err w =? GL_NO_ERROR); cbn [negb]; [reflexivity|].
  by rewrite gl_error_string_describe.
Qed.

Lemma frame_buffer_error_eq (w : world C) (log : string) :
  run (frame_buffer_error log) w =
  (let st := (run (glCheckFramebufferStatus GL_FRAMEBUFFER) (w_gl w)).1 in
   if st =? GL_FRAMEBUFFER_COMPLETE then (true, log)
   else (false, fb_status_message st),
   mk_world (run (glCheckFramebufferStatus GL_FRAMEBUFFER) (w_gl w)).2 (w_cerr w)).
Proof.
  unfold frame_buffer_error. rewrite st_bind_run, on_gl_run. simpl.
  unfold fb_status_message, fb_status_of_enum. case_code; reflexivity.
Qed.

(** The messages [frame_buffer_error] may store: the name of each status
    other than "complete", and the fallback. *)
Definition fb_error_messages : list string :=
  map fb_status_name (tail all_fb_statuses) ++ ["unknown error"].

Lemma fb_status_message_mem (x : GLenum) :
  (x =? GL_FRAMEBUFFER_COMPLETE) = false -> fb_status_message x ∈ fb_error_messages.
Proof.
  unfold fb_status_message, fb_status_of_enum. intros H.
  case_code; apply (bool_decide_unpack _); vm_compute; reflexivity.
Qed.

Lemma fb_error_messages_nonempty (m : string) :
  m ∈ fb_error_messages -> m <> ""%string.
Proof.
  revert m. apply Forall_forall.
  apply (bool_decide_unpack _). vm_compute. reflexivity.
Qed.

(** [check_frame_buffer_error] on any context: one status query, nothing
    written, and [true]. *)
Lemma check_frame_buffer_error_eq (w : world C) (file : string) (line : Z) :
  run (check_frame_buffer_error file line) w =
  (true, mk_world (run (glCheckFramebufferStatus GL_FRAMEBUFFER) (w_gl w)).2
           (w_cerr w)).
Proof.
  unfold check_frame_buffer_error. rewrite st_bind_run, frame_buffer_error_eq.
  simpl. by destruct (_ =? _).
Qed.

(** C18: on every GL context, [frame_buffer_error] either returns [true]
    with its out-parameter unchanged, or returns [false] with a
    non-empty message that is one of the status names or "unknown
    error". *)
Theorem frame_buffer_error_result (w : world C) (log : string) :
  (run (frame_buffer_error log) w).1 = (true, log) \/
  ((run (frame_buffer_error log) w).1.1 = false /\
   (run (frame_buffer_error log) w).1.2 ∈ fb_error_messages /\
   (run (frame_buffer_error log) w).1.2 <> ""%string).
Proof.
  rewrite frame_buffer_error_eq. simpl.
  destruct (_ =? _) eqn:H; [by left | right].
  pose proof (fb_status_message_mem _ H) as Hm.
  split; [done|]. split; [done|]. by apply fb_error_messages_nonempty.
Qed.

(** C19: [check_gl_error] is [gl_error] followed by the report of line
    54: on every context, running it gives the same result and the same
    world as calling [gl_error] with an empty [log] and, when that call
    returns [true], writing its message to [std::cerr] and returning
    [false]. *)
Theorem check_gl_error_via_gl_error (w : world C) (file : string) (line : Z) :
  run (check_gl_error file line) w =
  run (('((r, msg) : bool * string) ← gl_error "";
        if r then on_cerr (gl_error_report file line msg);; mret false
        else mret true) : St (world C) bool) w.
Proof.
  rewrite check_gl_error_eq, st_bind_run, gl_error_eq.
  destruct (gl_err w =? GL_NO_ERROR); [reflexivity|].
  by rewrite st_bind_run, on_cerr_run, gl_error_report_run.
Qed.

(** Running [n] checks in a row, as the call sites of the
    [easy3d_debug_log_gl_error] macro do; the results in call order. *)
Fixpoint check_gl_error_n (n : nat) (file : string) (line : Z)
    : St (world C) (list bool) :=
  match n with
  | O => mret []
  | S n' => r ← check_gl_error file line; rs ← check_gl_error_n n' file line;
            mret (r :: rs)
  end.

(** The values [n] successive [glGetError] calls return, and the
    context after them. *)
Fixpoint gl_errors (n : nat) (c : C) : list GLenum * C :=
  match n with
  | O => ([], c)
  | S n' =>
      let r := run glGetError c in
      let rs := gl_errors n' r.2 in
      (r.1 :: rs.1, rs.2)
  end.

(** The text the reports of line 54 for the errors [es] write, in order. *)
Definition reports_text (file : string) (line : Z) (es : list GLenum) : string :=
  foldr (fun e acc => (gl_error_msg file line (describe_error e) +s+ acc)%e3d) "" es.

End Reporter.

Section Laws.
Context {C : Type} `{!GLContext C} `{!GLContextLaws C}.
Implicit Types (w : world C) (file log : string) (line : Z).

Lemma world_eta w : mk_world (w_gl w) (w_cerr w) = w.
Proof. by destruct w. Qed.

Lemma gl_err_none w :
  gl_wf (w_gl w) -> gl_pending (w_gl w) = 0%nat ->
  gl_err w = GL_NO_ERROR /\ gl_after w = w.
Proof.
  intros Hwf Hp. unfold gl_err, gl_after. rewrite (glGetError_none _ Hwf Hp).
  split; [done|]. apply world_eta.
Qed.

Lemma gl_err_some w :
  gl_wf (w_gl w) -> (0 < gl_pending (w_gl w))%nat ->
  (gl_err w =? GL_NO_ERROR) = false /\ gl_error_value (gl_err w) = true /\
  gl_wf (w_gl (gl_after w)) /\
  gl_pending (w_gl (gl_after w)) = pred (gl_pending (w_gl w)) /\
  gl_fb_status (w_gl (gl_after w)) = gl_fb_status (w_gl w).
Proof.
  intros Hwf Hp. destruct (glGetError_some _ Hwf Hp) as [Hv Hp'].
  split; [by apply Z.eqb_neq, gl_error_value_nonzero|].
  split; [done|]. split; [by apply glGetError_wf|].
  split; [done | by apply glGetError_fb].
Qed.

Lemma gl_fb_query w :
  gl_wf (w_gl w) ->
  run (glCheckFramebufferStatus GL_FRAMEBUFFER) (w_gl w) = (gl_fb_status (w_gl w), w_gl w).
Proof. apply glCheckFramebufferStatus_fb. Qed.

(** C3: with no pending error, [check_gl_error] returns [true] and changes
    nothing: no GL state, no output. *)
Theorem check_gl_error_clear w file line :
  gl_wf (w_gl w) -> gl_pending (w_gl w) = 0%nat ->
  run (check_gl_error file line) w = (true, w).
Proof.
  intros Hwf Hp. destruct (gl_err_none w Hwf Hp) as [He Ha].
  by rewrite check_gl_error_eq, He, Ha.
Qed.

(** C2: with a pending error, [check_gl_error] returns [false], consumes
    that error, and appends one line to [std::cerr]: the file, the line
    and the error's description from the table. *)
Theorem check_gl_error_reports w file line :
  gl_wf (w_gl w) -> (0 < gl_pending (w_gl w))%nat ->
  run (check_gl_error file line) w =
  (false, mk_world (w_gl (gl_after w))
            (w_cerr w +s+ gl_error_msg file line (describe_error (gl_err w)))%e3d).
Proof.
  intros Hwf Hp. destruct (gl_err_some w Hwf Hp) as [He _].
  by rewrite check_gl_error_eq, He.
Qed.

(** C4: [check_gl_error] returns [true] exactly when no error is pending. *)
Theorem check_gl_error_true_iff w file line :
  gl_wf (w_gl w) ->
  (run (check_gl_error file line) w).1 = true <-> gl_pending (w_gl w) = 0%nat.
Proof.
  intros Hwf. rewrite check_gl_error_eq.
  destruct (gl_pending (w_gl w)) eqn:Hp.
  - by rewrite (proj1 (gl_err_none w Hwf Hp)).
  - rewrite (proj1 (gl_err_some w Hwf ltac:(lia))). simpl. split; [done | lia].
Qed.

(** C9: a lost context ([GL_CONTEXT_LOST], OpenGL 4.5) is reported as
    "Unknown error": the switch of [gl_error_string] has no case for it. *)
Theorem check_gl_error_context_lost w file line :
  gl_wf (w_gl w) -> gl_err w = GL_CONTEXT_LOST ->
  run (check_gl_error file line) w =
  (false, mk_world (w_gl (gl_after w))
            (w_cerr w +s+ gl_error_msg file line "Unknown error")%e3d).
Proof. intros _ Hl. by rewrite check_gl_error_eq, Hl. Qed.

(** C7: with no pending error, [gl_error] returns [false] and leaves its
    out-parameter and the world unchanged. *)
Theorem gl_error_clear w log :
  gl_wf (w_gl w) -> gl_pending (w_gl w) = 0%nat ->
  run (gl_error log) w = ((false, log), w).
Proof.
  intros Hwf Hp. destruct (gl_err_none w Hwf Hp) as [He Ha].
  by rewrite gl_error_eq, He, Ha.
Qed.

(** C6: with a pending error, [gl_error] returns [true], sets the
    out-parameter to the error's description, consumes the error and
    writes nothing. *)
Theorem gl_error_reports w log :
  gl_wf (w_gl w) -> (0 < gl_pending (w_gl w))%nat ->
  run (gl_error log) w = ((true, describe_error (gl_err w)), gl_after w).
Proof.
  intros Hwf Hp. destruct (gl_err_some w Hwf Hp) as [He _].
  by rewrite gl_error_eq, He.
Qed.

(** C5: [frame_buffer_error] returns [true], leaving [log] alone, exactly
    on [GL_FRAMEBUFFER_COMPLETE]; otherwise it returns [false] with the
    status name, or "unknown error" for a status it does not know.  It
    changes neither the GL context nor [std::cerr]. *)
Theorem frame_buffer_error_spec w log :
  gl_wf (w_gl w) ->
  run (frame_buffer_error log) w =
  (if gl_fb_status (w_gl w) =? GL_FRAMEBUFFER_COMPLETE then (true, log)
   else (false, fb_status_message (gl_fb_status (w_gl w))), w).
Proof.
  intros Hwf. rewrite frame_buffer_error_eq, (gl_fb_query w Hwf). simpl.
  by rewrite world_eta.
Qed.

(** C1: [check_frame_buffer_error] returns [true] and writes nothing, in
    every state: an incomplete framebuffer is never reported. *)
Theorem check_frame_buffer_error_never_reports w file line :
  gl_wf (w_gl w) -> run (check_frame_buffer_error file line) w = (true, w).
Proof.
  intros Hwf. unfold check_frame_buffer_error.
  rewrite st_bind_run, frame_buffer_error_eq, (gl_fb_query w Hwf). simpl.
  rewrite world_eta. by destruct (_ =? _).
Qed.

(** C17: with exactly one error pending, [gl_error] consumes it, so a
    [check_gl_error] right after returns [true] and writes nothing: the
    two entry points never report the same error twice. *)
Theorem gl_error_then_check w log file line :
  gl_wf (w_gl w) -> gl_pending (w_gl w) = 1%nat ->
  exists w', run (gl_error log ≫= fun _ => check_gl_error file line) w = (true, w') /\
    w_cerr w' = w_cerr w /\ gl_pending (w_gl w') = 0%nat.
Proof.
  intros Hwf Hp.
  destruct (gl_err_some w Hwf ltac:(lia)) as (He & _ & Hwf1 & Hp1 & _).
  rewrite st_bind_run, gl_error_eq, He.
  assert (Hp0 : gl_pending (w_gl (gl_after w)) = 0%nat) by (rewrite Hp1, Hp; done).
  destruct (gl_err_none (gl_after w) Hwf1 Hp0) as [He1 Ha1].
  exists (gl_after w). by rewrite check_gl_error_eq, He1, Ha1.
Qed.

(** Reading an error leaves the framebuffer status as it was. *)
Lemma gl_after_fb_query w :
  gl_wf (w_gl w) ->
  run (glCheckFramebufferStatus GL_FRAMEBUFFER) (w_gl (gl_after w)) =
  (gl_fb_status (w_gl w), w_gl (gl_after w)).
Proof.
  intros Hwf. unfold gl_after. cbn [w_gl].
  rewrite glCheckFramebufferStatus_fb by by apply glGetError_wf.
  by rewrite glGetError_fb.
Qed.

(** C23: on every well-formed context, [check_gl_error] and
    [frame_buffer_error] commute: run in either order, they return the
    same results and leave the same world.  A framebuffer check neither
    consumes nor records a GL error, and an error check does not change
    the framebuffer status. *)
Theorem check_gl_error_fb_commute w file line log :
  gl_wf (w_gl w) ->
  st_commute (check_gl_error file line) (frame_buffer_error log) w.
Proof.
  intros Hwf. unfold st_commute. rewrite !st_bind_run.
  rewrite check_gl_error_eq, frame_buffer_error_eq, (gl_fb_query w Hwf).
  cbn [fst snd]. rewrite world_eta.
  destruct (gl_err w =? GL_NO_ERROR) eqn:He; cbn iota beta;
    rewrite !st_bind_run, frame_buffer_error_eq; cbn [w_gl w_cerr];
    rewrite (gl_after_fb_query w Hwf); cbn beta iota zeta delta [fst snd];
    rewrite check_gl_error_eq, He; reflexivity.
Qed.

(** [n] checks in a row, with at least [n] errors pending, write the
    reports of the [n] errors [glGetError] returns, in that order. *)
Lemma check_gl_error_n_run w (n : nat) file line :
  gl_wf (w_gl w) -> (n <= gl_pending (w_gl w))%nat ->
  run (check_gl_error_n n file line) w =
  (replicate n false,
   mk_world (gl_errors n (w_gl w)).2
     (w_cerr w +s+ reports_text file line (gl_errors n (w_gl w)).1)%e3d).
Proof.
  revert w. induction n as [|n IH]; intros w Hwf Hn.
  - simpl. by rewrite string_app_nil_r, world_eta.
  - destruct (gl_err_some w Hwf ltac:(lia)) as (He & _ & Hwf1 & Hp1 & _).
    cbn [check_gl_error_n]. rewrite st_bind_run, check_gl_error_eq, He.
    cbn iota beta. rewrite st_bind_run, IH; [| done | cbn [w_gl]; lia].
    cbn. rewrite string_app_assoc. reflexivity.
Qed.

(** What [n] successive [glGetError] calls return when at least [n]
    errors are pending: [n] OpenGL error values, one pending error fewer
    per call, and the framebuffer status unchanged. *)
Lemma gl_errors_spec (n : nat) (c : C) :
  gl_wf c -> (n <= gl_pending c)%nat ->
  length (gl_errors n c).1 = n /\
  Forall (fun e => gl_error_value e = true) (gl_errors n c).1 /\
  gl_wf (gl_errors n c).2 /\
  gl_pending (gl_errors n c).2 = (gl_pending c - n)%nat /\
  gl_fb_status (gl_errors n c).2 = gl_fb_status c.
Proof.
  revert c. induction n as [|n IH]; intros c Hwf Hn; [simpl; split_and!; auto; lia|].
  destruct (glGetError_some c Hwf ltac:(lia)) as [Hv Hp].
  destruct (IH (run glGetError c).2) as (Hl & Hf & Hw & Hp' & Hs);
    [by apply glGetError_wf | lia |].
  cbn [gl_errors fst snd]. split_and!.
  - simpl. by rewrite Hl.
  - by constructor.
  - done.
  - lia.
  - by rewrite Hs, glGetError_fb.
Qed.

(** C8: calling [check_gl_error] once per pending error returns [false]
    every time and writes to [std::cerr] the report lines of that many
    OpenGL error values, one per call, in call order.  It leaves no error
    pending, so the next call returns [true]; the framebuffer status is
    untouched. *)
Theorem check_gl_error_n_drains w file line :
  gl_wf (w_gl w) ->
  exists es w', run (check_gl_error_n (gl_pending (w_gl w)) file line) w =
                  (replicate (gl_pending (w_gl w)) false, w') /\
    length es = gl_pending (w_gl w) /\
    Forall (fun e => gl_error_value e = true) es /\
    w_cerr w' = (w_cerr w +s+ reports_text file line es)%e3d /\
    gl_pending (w_gl w') = 0%nat /\
    (run (check_gl_error file line) w').1 = true /\
    gl_fb_status (w_gl w') = gl_fb_status (w_gl w).
Proof.
  intros Hwf. set (n := gl_pending (w_gl w)).
  destruct (gl_errors_spec n (w_gl w) Hwf ltac:(done)) as (Hl & Hf & Hw & Hp & Hs).
  eexists _, _. rewrite check_gl_error_n_run by done.
  split; [reflexivity|]. split_and!; try done; cbn [w_gl w_cerr].
  - lia.
  - rewrite check_gl_error_eq. unfold gl_err. cbn [w_gl].
    by rewrite (glGetError_none _ Hw) by lia.
Qed.

End Laws.

(** ** The entry points on the flag-array context *)

Module OnFlagCtx.
Import FlagCtx.

(** Flag 1 holds [GL_INVALID_OPERATION] and flag 2 [GL_OUT_OF_MEMORY]; the
    draw framebuffer has an incomplete attachment. *)
Definition w_errors : world flag_ctx :=
  mk_world (mk_ctx [GL_NO_ERROR; GL_INVALID_OPERATION; GL_OUT_OF_MEMORY]
              GL_FRAMEBUFFER_INCOMPLETE_ATTACHMENT GL_FRAMEBUFFER_COMPLETE) "".

Definition w_clear : world flag_ctx := mk_world (init_ctx 2) "".

Definition w_lost : world flag_ctx :=
  mk_world (mk_ctx [GL_CONTEXT_LOST] GL_FRAMEBUFFER_COMPLETE
              GL_FRAMEBUFFER_COMPLETE) "".

Ltac wf_by_compute := simpl; apply (bool_decide_unpack _); vm_compute; reflexivity.

Example check_gl_error_output :
  run (check_gl_error "main.cpp" 42) w_errors =
  (false, mk_world (mk_ctx [GL_NO_ERROR; GL_NO_ERROR; GL_OUT_OF_MEMORY]
                      GL_FRAMEBUFFER_INCOMPLETE_ATTACHMENT GL_FRAMEBUFFER_COMPLETE)
            ("GL error in file 'main.cpp' @ line 42: Invalid operation" +s+ newline)%e3d).
Proof. vm_compute. reflexivity. Qed.

Example check_frame_buffer_error_output :
  run (check_frame_buffer_error "main.cpp" 43) w_errors = (true, w_errors).
Proof. vm_compute. reflexivity. Qed.

(** C10: in every reachable GL state with an error pending, [check_gl_error]
    reports the error's own text from the switch, unless the error is
    [GL_CONTEXT_LOST], which is reported as "Unknown error". *)
Theorem check_gl_error_reachable (n : nat) (c : flag_ctx) (out file : string) (line : Z) :
  reachable n c -> (0 < pending c)%nat ->
  (exists k, gl_error_of_enum (ctx_glGetError c).1 = Some k /\
     run (check_gl_error file line) (mk_world c out) =
     (false, mk_world (ctx_glGetError c).2
               (out +s+ gl_error_msg file line (gl_error_text k))%e3d)) \/
  ((ctx_glGetError c).1 = GL_CONTEXT_LOST /\
     run (check_gl_error file line) (mk_world c out) =
     (false, mk_world (ctx_glGetError c).2
               (out +s+ gl_error_msg file line "Unknown error")%e3d)).
Proof.
  intros Hr Hp. pose proof (reachable_wf n c Hr) as Hwf.
  destruct (@glGetError_some flag_ctx _ flag_ctx_laws c Hwf Hp) as [Hv _].
  change (gl_error_value (ctx_glGetError c).1 = true) in Hv.
  pose proof (gl_error_value_nonzero _ Hv) as Hz.
  rewrite check_gl_error_eq. unfold gl_err, gl_after, run. simpl.
  apply Z.eqb_neq in Hz. rewrite Hz.
  unfold gl_error_value in Hv. apply orb_true_iff in Hv as [Hv | Hv].
  - apply bool_decide_eq_true in Hv as [k Hk]. left. exists k.
    split; [done|]. by rewrite (describe_error_decoded _ k Hk).
  - apply Z.eqb_eq in Hv. right. split; [done|]. by rewrite Hv.
Qed.

Ltac pending_by_compute := vm_compute; lia.

Lemma check_gl_error_reachable_witness :
  reachable 2 (set_error 1 GL_INVALID_VALUE (init_ctx 2)) /\
  (0 < pending (set_error 1 GL_INVALID_VALUE (init_ctx 2)))%nat /\
  ((exists k, gl_error_of_enum
                (ctx_glGetError (set_error 1 GL_INVALID_VALUE (init_ctx 2))).1 = Some k /\
     run (check_gl_error "main.cpp" 42)
       (mk_world (set_error 1 GL_INVALID_VALUE (init_ctx 2)) "") =
     (false, mk_world (ctx_glGetError (set_error 1 GL_INVALID_VALUE (init_ctx 2))).2
               (""%string +s+ gl_error_msg "main.cpp" 42 (gl_error_text k))%e3d)) \/
   ((ctx_glGetError (set_error 1 GL_INVALID_VALUE (init_ctx 2))).1 = GL_CONTEXT_LOST /\
     run (check_gl_error "main.cpp" 42)
       (mk_world (set_error 1 GL_INVALID_VALUE (init_ctx 2)) "") =
     (false, mk_world (ctx_glGetError (set_error 1 GL_INVALID_VALUE (init_ctx 2))).2
               (""%string +s+ gl_error_msg "main.cpp" 42 "Unknown error")%e3d))).
Proof.
  assert (reachable 2 (set_error 1 GL_INVALID_VALUE (init_ctx 2))) as Hr.
  { apply rtc_once. apply step_error. vm_compute. reflexivity. }
  split; [exact Hr|]. split; [pending_by_compute|].
  apply (check_gl_error_reachable 2); [exact Hr | pending_by_compute].
Defined.

Lemma check_frame_buffer_error_never_reports_witness :
  gl_wf (w_gl w_errors) /\
  run (check_frame_buffer_error "main.cpp" 43) w_errors = (true, w_errors).
Proof.
  split; [wf_by_compute|].
  apply check_frame_buffer_error_never_reports. wf_by_compute.
Defined.

Lemma check_gl_error_reports_witness :
  gl_wf (w_gl w_errors) /\ (0 < gl_pending (w_gl w_errors))%nat /\
  run (check_gl_error "main.cpp" 42) w_errors =
  (false, mk_world (w_gl (gl_after w_errors))
            (w_cerr w_errors +s+
             gl_error_msg "main.cpp" 42 (describe_error (gl_err w_errors)))%e3d).
Proof.
  split; [wf_by_compute|]. split; [pending_by_compute|].
  apply check_gl_error_reports; [wf_by_compute | pending_by_compute].
Defined.

Lemma check_gl_error_clear_witness :
  gl_wf (w_gl w_clear) /\ gl_pending (w_gl w_clear) = 0%nat /\
  run (check_gl_error "main.cpp" 42) w_clear = (true, w_clear).
Proof.
  split; [wf_by_compute|]. split; [reflexivity|].
  apply check_gl_error_clear; [wf_by_compute | reflexivity].
Defined.

Lemma check_gl_error_true_iff_witness :
  gl_wf (w_gl w_errors) /\
  ((run (check_gl_error "main.cpp" 42) w_errors).1 = true <->
   gl_pending (w_gl w_errors) = 0%nat).
Proof.
  split; [wf_by_compute|]. apply check_gl_error_true_iff. wf_by_compute.
Defined.

Lemma frame_buffer_error_spec_witness :
  gl_wf (w_gl w_errors) /\
  run (frame_buffer_error "") w_errors =
  (if gl_fb_status (w_gl w_errors) =? GL_FRAMEBUFFER_COMPLETE then (true, "")
   else (false, fb_status_message (gl_fb_status (w_gl w_errors))), w_errors).
Proof.
  split; [wf_by_compute|]. apply frame_buffer_error_spec. wf_by_compute.
Defined.

Lemma gl_error_reports_witness :
  gl_wf (w_gl w_errors) /\ (0 < gl_pending (w_gl w_errors))%nat /\
  run (gl_error "") w_errors =
  ((true, describe_error (gl_err w_errors)), gl_after w_errors).
Proof.
  split; [wf_by_compute|]. split; [pending_by_compute|].
  apply gl_error_reports; [wf_by_compute | pending_by_compute].
Defined.

Lemma gl_error_clear_witness :
  gl_wf (w_gl w_clear) /\ gl_pending (w_gl w_clear) = 0%nat /\
  run (gl_error "old") w_clear = ((false, "old"), w_clear).
Proof.
  split; [wf_by_compute|]. split; [reflexivity|].
  apply gl_error_clear; [wf_by_compute | reflexivity].
Defined.

Lemma check_gl_error_n_drains_witness :
  gl_wf (w_gl w_errors) /\
  exists es w', run (check_gl_error_n (gl_pending (w_gl w_errors)) "main.cpp" 42)
               w_errors = (replicate (gl_pending (w_gl w_errors)) false, w') /\
    length es = gl_pending (w_gl w_errors) /\
    Forall (fun e => gl_error_value e = true) es /\
    w_cerr w' = (w_cerr w_errors +s+ reports_text "main.cpp" 42 es)%e3d /\
    gl_pending (w_gl w') = 0%nat /\
    (run (check_gl_error "main.cpp" 42) w').1 = true /\
    gl_fb_status (w_gl w') = gl_fb_status (w_gl w_errors).
Proof.
  split; [wf_by_compute|]. apply check_gl_error_n_drains. wf_by_compute.
Defined.

Lemma check_gl_error_context_lost_witness :
  gl_wf (w_gl w_lost) /\ gl_err w_lost = GL_CONTEXT_LOST /\
  run (check_gl_error "main.cpp" 42) w_lost =
  (false, mk_world (w_gl (gl_after w_lost))
            (w_cerr w_lost +s+ gl_error_msg "main.cpp" 42 "Unknown error")%e3d).
Proof.
  split; [wf_by_compute|]. split; [reflexivity|].
  apply check_gl_error_context_lost; [wf_by_compute | reflexivity].
Defined.

Lemma gl_error_then_check_witness :
  gl_wf (w_gl w_lost) /\ gl_pending (w_gl w_lost) = 1%nat /\
  exists w', run (gl_error "" ≫= fun _ => check_gl_error "main.cpp" 42) w_lost =
               (true, w') /\
    w_cerr w' = w_cerr w_lost /\ gl_pending (w_gl w') = 0%nat.
Proof.
  split; [wf_by_compute|]. split; [reflexivity|].
  apply gl_error_then_check; [wf_by_compute | reflexivity].
Defined.

(** Two errors pending and an incomplete draw framebuffer: the order of
    the two checks does not matter. *)
Lemma check_gl_error_fb_commute_witness :
  gl_wf (w_gl w_errors) /\
  st_commute (check_gl_error "main.cpp" 42) (frame_buffer_error "") w_errors.
Proof.
  split; [wf_by_compute|]. apply check_gl_error_fb_commute. wf_by_compute.
Defined.

End OnFlagCtx.
