(* ===== verification/System.v ===== *)
(** * System: the reporter and the GL context together

    A program that uses [opengl_error.cpp] interleaves its own GL calls,
    which may record errors and bind framebuffers, with calls to the
    four entry points.  [sys_step] is that interleaving on worlds over
    the flag-array context [FlagCtx]: one GL step, or one call of an
    entry point with any arguments.

    Three results hold for it:
    - Invariant: in every world reachable from a fresh context and an
      empty [std::cerr], the context is reachable by GL steps alone.  The
      text on [std::cerr] is a sequence of complete GL error report lines
      ([cerr_log]), each with a description [gl_error_string] returns.  No
      framebuffer report ever appears.
    - Refinement: [check_gl_error] implements [check_spec].  That is the
      behaviour the spec and the OpenGL specification allow when several
      error flags are set: with none set, [true] and no change; otherwise
      some set flag is reported, cleared, and [false] returned.
    - Ordering: on the flag array, one check per pending error reports
      every pending error once, in flag order, and clears every flag
      ([check_gl_error_n_flag_order]). *)

From S2P Require Import Prelude GLEnum OStream GLContext ErrorString Reporter.
Import OStream ErrorString FlagCtx.

Module System.

(** The text on [std::cerr]: report lines of [check_gl_error], in order. *)
Inductive cerr_log : string -> Prop :=
  | log_nil : cerr_log ""
  | log_line out file line code str :
      cerr_log out -> gl_error_string code = Some str ->
      cerr_log (out +s+ gl_error_msg file line str)%e3d.

Inductive sys_step : world flag_ctx -> world flag_ctx -> Prop :=
  | sys_gl c c' out : gl_step c c' -> sys_step (mk_world c out) (mk_world c' out)
  | sys_check_gl_error w file line :
      sys_step w (run (check_gl_error file line) w).2
  | sys_gl_error w log : sys_step w (run (gl_error log) w).2
  | sys_frame_buffer_error w log : sys_step w (run (frame_buffer_error log) w).2
  | sys_check_frame_buffer_error w file line :
      sys_step w (run (check_frame_buffer_error file line) w).2.

Definition init_world (n : nat) : world flag_ctx := mk_world (init_ctx n) "".

Definition sys_reachable (n : nat) (w : world flag_ctx) : Prop :=
  rtc sys_step (init_world n) w.

(** What [check_gl_error] may do, per the specification of [glGetError]. *)
Definition check_spec (file : string) (line : Z) (w : world flag_ctx)
    (b : bool) (w' : world flag_ctx) : Prop :=
  (pending (w_gl w) = 0%nat /\ b = true /\ w' = w) \/
  (exists i e, flags (w_gl w) !! i = Some e /\ e <> GL_NO_ERROR /\ b = false /\
     w' = mk_world (with_flags (<[i := GL_NO_ERROR]> (flags (w_gl w))) (w_gl w))
            (w_cerr w +s+ gl_error_msg file line (describe_error e))%e3d).

(** ** Each step *)

Lemma sys_step_gl (w w' : world flag_ctx) :
  sys_step w w' -> rtc gl_step (w_gl w) (w_gl w').
Proof.
  destruct 1 as [c c' out Hs|w file line|w log|w log|w file line]; simpl.
  - by apply rtc_once.
  - rewrite check_gl_error_eq. destruct (_ =? _); apply rtc_once, step_get_error.
  - rewrite gl_error_eq. destruct (_ =? _); apply rtc_once, step_get_error.
  - rewrite frame_buffer_error_eq. apply rtc_once, step_check_fb.
  - rewrite check_frame_buffer_error_eq. apply rtc_once, step_check_fb.
Qed.

Lemma sys_step_log (w w' : world flag_ctx) :
  sys_step w w' -> cerr_log (w_cerr w) -> cerr_log (w_cerr w').
Proof.
  destruct 1 as [c c' out Hs|w file line|w log|w log|w file line]; intros Hl.
  - done.
  - rewrite check_gl_error_eq. destruct (_ =? _); [done|].
    simpl. eapply log_line; [done | apply gl_error_string_describe].
  - rewrite gl_error_eq. by destruct (_ =? _).
  - by rewrite frame_buffer_error_eq.
  - by rewrite check_frame_buffer_error_eq.
Qed.

Lemma sys_steps_inv (w w' : world flag_ctx) :
  rtc sys_step w w' ->
  rtc gl_step (w_gl w) (w_gl w') /\ (cerr_log (w_cerr w) -> cerr_log (w_cerr w')).
Proof.
  induction 1 as [w|w1 w2 w3 Hs _ [IHg IHl]]; [done|].
  split.
  - eapply rtc_trans; [by apply sys_step_gl | done].
  - intros Hl. by apply IHl, (sys_step_log w1).
Qed.

(** [pending c] reads of the flag array return the pending errors in
    flag order and leave every flag clear. *)
Lemma gl_errors_flag (c : flag_ctx) :
  gl_errors (pending c) c =
  (filter (fun f => f <> GL_NO_ERROR) (flags c),
   mk_ctx (replicate (length (flags c)) GL_NO_ERROR) (draw_status c) (read_status c)).
Proof.
  remember (pending c) as n eqn:Hn. revert c Hn.
  induction n as [|n IH]; intros c Hn.
  - pose proof (pending_zero_flags c (eq_sym Hn)) as Hf.
    unfold pending in Hn. symmetry in Hn. apply length_zero_iff_nil in Hn.
    destruct c as [fl d r]. simpl in *. rewrite Hn, <- Hf. done.
  - destruct (first_flag (flags c)) as [[i e]|] eqn:Hf.
    2: { unfold pending in Hn. rewrite first_flag_none in Hn by done. done. }
    pose proof (first_flag_filter _ _ _ Hf) as Hfl.
    destruct (first_flag_some _ _ _ Hf) as [Hl He].
    assert (ctx_glGetError c = (e, with_flags (<[i := GL_NO_ERROR]> (flags c)) c)) as Hg
      by (unfold ctx_glGetError; by rewrite Hf).
    cbn [gl_errors]. unfold run. change (@glGetError _ flag_ctx_gl) with ctx_glGetError.
    rewrite Hg. cbn [fst snd]. rewrite IH.
    2: { unfold pending in *. simpl. rewrite (filter_clear_flag _ i e) by done. lia. }
    simpl. by rewrite length_insert, Hfl.
Qed.

(** ** Theorems *)

(** C16: in every reachable world the GL context is reachable by GL steps
    alone, and [std::cerr] holds only complete GL error report lines. *)
Theorem sys_reachable_inv (n : nat) (w : world flag_ctx) :
  sys_reachable n w -> reachable n (w_gl w) /\ cerr_log (w_cerr w).
Proof.
  intros Hr. destruct (sys_steps_inv _ _ Hr) as [Hg Hl].
  split; [exact Hg | apply Hl, log_nil].
Qed.

(** C15: every run of [check_gl_error] on the flag-array context is one the
    specification allows. *)
Theorem check_gl_error_refines (file : string) (line : Z)
    (w w' : world flag_ctx) (b : bool) :
  run (check_gl_error file line) w = (b, w') -> check_spec file line w b w'.
Proof.
  rewrite check_gl_error_eq. unfold gl_err, gl_after, run. simpl.
  destruct (ctx_glGetError (w_gl w)) as [e c'] eqn:Hg. simpl.
  apply ctx_glGetError_refines in Hg.
  destruct Hg as [(Hp & -> & ->) | (i & Hl & He & ->)]; intros H.
  - left. injection H as <- <-. by destruct w.
  - right. apply Z.eqb_neq in He as He'. rewrite He' in H.
    injection H as <- <-. exists i, e. split; [done|]. split; [|done].
    by apply Z.eqb_neq.
Qed.

(** C21: on the flag array, as many checks as there are pending errors
    report every pending error exactly once, in the order of the flags,
    return [false] each time, and leave every flag clear; the
    framebuffer bindings are untouched. *)
Theorem check_gl_error_n_flag_order (c : flag_ctx) (out file : string) (line : Z) :
  ctx_wf c ->
  run (check_gl_error_n (pending c) file line) (mk_world c out) =
  (replicate (pending c) false,
   mk_world (mk_ctx (replicate (length (flags c)) GL_NO_ERROR) (draw_status c) (read_status c))
     (out +s+ reports_text file line (filter (fun f => f <> GL_NO_ERROR) (flags c)))%e3d).
Proof.
  intros Hwf. rewrite (check_gl_error_n_run (mk_world c out)); [|done | simpl; lia].
  simpl. by rewrite gl_errors_flag.
Qed.

(** ** Witnesses *)

Definition w_one_error : world flag_ctx :=
  mk_world (set_error 1 GL_INVALID_VALUE (init_ctx 2)) "".

Lemma sys_reachable_inv_witness :
  sys_reachable 2 (run (check_gl_error "main.cpp" 42) w_one_error).2 /\
  reachable 2 (w_gl (run (check_gl_error "main.cpp" 42) w_one_error).2) /\
  cerr_log (w_cerr (run (check_gl_error "main.cpp" 42) w_one_error).2).
Proof.
  assert (sys_reachable 2 (run (check_gl_error "main.cpp" 42) w_one_error).2) as Hr.
  { eapply rtc_l.
    - apply (sys_gl (init_ctx 2) (set_error 1 GL_INVALID_VALUE (init_ctx 2)) "").
      apply step_error. vm_compute. reflexivity.
    - apply rtc_once, sys_check_gl_error. }
  split; [exact Hr|]. apply (sys_reachable_inv 2). exact Hr.
Defined.

Lemma check_gl_error_refines_witness :
  run (check_gl_error "main.cpp" 42) w_one_error =
    (false, mk_world (init_ctx 2)
              ("" +s+ gl_error_msg "main.cpp" 42 "Invalid value")%e3d) /\
  check_spec "main.cpp" 42 w_one_error false
    (mk_world (init_ctx 2) ("" +s+ gl_error_msg "main.cpp" 42 "Invalid value")%e3d).
Proof.
  split; [vm_compute; reflexivity|].
  apply check_gl_error_refines. vm_compute. reflexivity.
Defined.

Lemma check_gl_error_n_flag_order_witness :
  ctx_wf ctx_two_errors /\
  run (check_gl_error_n (pending ctx_two_errors) "main.cpp" 42) (mk_world ctx_two_errors "") =
  (replicate (pending ctx_two_errors) false,
   mk_world (mk_ctx (replicate (length (flags ctx_two_errors)) GL_NO_ERROR)
               (draw_status ctx_two_errors) (read_status ctx_two_errors))
     ("" +s+ reports_text "main.cpp" 42
        (filter (fun f => f <> GL_NO_ERROR) (flags ctx_two_errors)))%e3d).
Proof.
  assert (ctx_wf ctx_two_errors) as Hwf
    by (apply (bool_decide_unpack _); vm_compute; reflexivity).
  split; [exact Hwf | apply check_gl_error_n_flag_order; exact Hwf].
Defined.

End System.
