(* ===== verification/OracleCtx.v ===== *)
(** * OracleCtx: a GL context whose driver chooses which error to report

    The OpenGL specification (4.6 core, section 2.3.1) lets [glGetError]
    return the value of any set error flag when several are set.
    [FlagCtx] always takes the first.  [OracleCtx] takes the flag an
    oracle names: the context carries the list of the driver's future
    choices ([o_picks]).  When the chosen flag is clear or out of range,
    it falls back to the first set flag.  A call with no flag set
    consumes no choice and changes nothing.

    [oracle_ctx_laws] shows that this context satisfies the contract
    [GLContextLaws] too.  So every theorem of Section [Laws] of
    [Reporter] holds for it, whatever the driver chooses.  Over all
    oracles, the runs of [check_gl_error] are exactly the behaviours
    [System.check_spec] allows ([check_gl_error_oracle_exact]).  That
    specification is thus no looser than the specification of OpenGL
    makes it.  Whatever the driver chooses, one check per pending error
    reports each pending error exactly once: the reported errors are a
    permutation of the pending ones ([check_gl_error_n_oracle_perm]). *)

From S2P Require Import Prelude GLEnum OStream GLContext ErrorString Reporter System.
Import OStream ErrorString FlagCtx System.

Module OracleCtx.

Record oracle_ctx := mk_octx {
  o_ctx : flag_ctx;
  o_picks : list nat;
}.

(** The driver's next choice among the set flags: the flag it names if
    that flag is set, otherwise the default [d]. *)
Definition oracle_pick (fl : list GLenum) (picks : list nat) (d : nat * GLenum)
    : (nat * GLenum) * list nat :=
  match picks with
  | i :: rest =>
      (match fl !! i with
       | Some e => if e =? GL_NO_ERROR then d else (i, e)
       | None => d
       end, rest)
  | [] => (d, [])
  end.

Definition octx_glGetError : St oracle_ctx GLenum := fun o =>
  match first_flag (flags (o_ctx o)) with
  | None => (GL_NO_ERROR, o)
  | Some d =>
      let '((i, e), rest) := oracle_pick (flags (o_ctx o)) (o_picks o) d in
      (e, mk_octx (with_flags (<[i := GL_NO_ERROR]> (flags (o_ctx o))) (o_ctx o)) rest)
  end.

Definition octx_glCheckFramebufferStatus (target : GLenum) : St oracle_ctx GLenum :=
  fun o =>
    let '(s, c') := ctx_glCheckFramebufferStatus target (o_ctx o) in
    (s, mk_octx c' (o_picks o)).

#[export] Instance oracle_ctx_gl : GLContext oracle_ctx :=
  {| glGetError := octx_glGetError;
     glCheckFramebufferStatus := octx_glCheckFramebufferStatus |}.

(** A world of [FlagCtx] with the driver's future choices added. *)
Definition o_world (w : world flag_ctx) (picks : list nat) : world oracle_ctx :=
  mk_world (mk_octx (w_gl w) picks) (w_cerr w).

(** ** The driver's choice *)

Lemma oracle_pick_set (fl : list GLenum) (picks : list nat) (d : nat * GLenum) :
  fl !! d.1 = Some d.2 -> d.2 <> GL_NO_ERROR ->
  fl !! (oracle_pick fl picks d).1.1 = Some (oracle_pick fl picks d).1.2 /\
  (oracle_pick fl picks d).1.2 <> GL_NO_ERROR.
Proof.
  intros Hd He. destruct picks as [|i rest]; [done|]. simpl.
  destruct (fl !! i) as [e|] eqn:Hi; [|done]. case_code; done.
Qed.

(** Naming a set flag makes the driver report it. *)
Lemma oracle_pick_named (fl : list GLenum) (i : nat) (e : GLenum) (d : nat * GLenum) :
  fl !! i = Some e -> e <> GL_NO_ERROR -> oracle_pick fl [i] d = ((i, e), []).
Proof. intros Hi He. simpl. rewrite Hi. by case_code. Qed.

Lemma first_flag_set (fl : list GLenum) (i : nat) (e : GLenum) :
  fl !! i = Some e -> e <> GL_NO_ERROR -> is_Some (first_flag fl).
Proof.
  intros Hi He. destruct (first_flag fl) eqn:Hf; [done|].
  apply first_flag_none in Hf. exfalso.
  assert (e ∈ filter (fun f => f <> GL_NO_ERROR) fl) as Hin
    by (apply list_elem_of_filter; split; [done | by eapply list_elem_of_lookup_2]).
  rewrite Hf in Hin. set_solver.
Qed.

Lemma octx_glGetError_none (c : flag_ctx) (picks : list nat) :
  first_flag (flags c) = None ->
  octx_glGetError (mk_octx c picks) = (GL_NO_ERROR, mk_octx c picks).
Proof. intros Hf. unfold octx_glGetError. simpl. by rewrite Hf. Qed.

(** [octx_glGetError] on a context with some flag set: the flag the
    driver picks, read and cleared. *)
Lemma octx_glGetError_some (c : flag_ctx) (picks : list nat) (d : nat * GLenum) :
  first_flag (flags c) = Some d ->
  octx_glGetError (mk_octx c picks) =
  ((oracle_pick (flags c) picks d).1.2,
   mk_octx (with_flags (<[(oracle_pick (flags c) picks d).1.1 := GL_NO_ERROR]> (flags c)) c)
     (oracle_pick (flags c) picks d).2).
Proof.
  intros Hf. unfold octx_glGetError. simpl. rewrite Hf.
  by destruct (oracle_pick (flags c) picks d) as [[i e] rest].
Qed.

(** Over all choices of the driver, [octx_glGetError] does exactly what
    the OpenGL specification of [glGetError] allows. *)
Lemma octx_glGetError_exact (c c' : flag_ctx) (e : GLenum) :
  glGetError_spec c e c' <->
  exists picks rest, octx_glGetError (mk_octx c picks) = (e, mk_octx c' rest).
Proof.
  split.
  - intros [(Hp & -> & ->) | (i & Hi & He & ->)].
    + exists [], []. by rewrite octx_glGetError_none by by apply pending_zero.
    + destruct (first_flag_set _ _ _ Hi He) as [d Hf].
      exists [i], []. rewrite (octx_glGetError_some _ _ d Hf).
      by rewrite (oracle_pick_named _ i e d Hi He).
  - intros (picks & rest & H).
    destruct (first_flag (flags c)) as [d|] eqn:Hf.
    + rewrite (octx_glGetError_some _ _ d Hf) in H. injection H as <- <- _.
      destruct d as [j x]. apply first_flag_some in Hf as [Hd Hde].
      destruct (oracle_pick_set (flags c) picks (j, x) Hd Hde) as [Hl Hn].
      right. eauto.
    + rewrite octx_glGetError_none in H by done.
      injection H as <- <-. left. unfold pending. by rewrite first_flag_none.
Qed.

(** ** [OracleCtx] satisfies the contract *)

#[export] Program Instance oracle_ctx_laws : GLContextLaws oracle_ctx :=
  {| gl_wf o := ctx_wf (o_ctx o);
     gl_pending o := pending (o_ctx o);
     gl_fb_status o := draw_status (o_ctx o) |}.
Next Obligation.
  intros [c picks] _ H. simpl in *. unfold run.
  by rewrite octx_glGetError_none by by apply pending_zero.
Qed.
Next Obligation.
  intros [c picks] Hc Hp. simpl in *. unfold run.
  destruct (first_flag (flags c)) as [d|] eqn:Hf.
  - rewrite (octx_glGetError_some _ _ d Hf). simpl.
    destruct d as [j x]. apply first_flag_some in Hf as [Hd Hde].
    destruct (oracle_pick_set (flags c) picks (j, x) Hd Hde) as [Hl Hn].
    split.
    + destruct (Forall_lookup_1 _ _ _ _ Hc Hl); done.
    + unfold pending. simpl. by eapply filter_clear_flag.
  - unfold pending in Hp. apply first_flag_none in Hf. rewrite Hf in Hp.
    simpl in Hp. lia.
Qed.
Next Obligation.
  intros [c picks] Hc. simpl in *. unfold run.
  destruct (first_flag (flags c)) as [d|] eqn:Hf; [|by rewrite octx_glGetError_none].
  rewrite (octx_glGetError_some _ _ d Hf). simpl. apply Forall_insert; [done | by left].
Qed.
Next Obligation.
  intros [c picks] _. simpl. unfold run.
  destruct (first_flag (flags c)) as [d|] eqn:Hf; [|by rewrite octx_glGetError_none].
  by rewrite (octx_glGetError_some _ _ d Hf).
Qed.
Next Obligation. intros [c picks] _. reflexivity. Qed.

(** ** [check_gl_error] under every choice of the driver *)

Lemma check_gl_error_octx (file : string) (line : Z) (w : world flag_ctx)
    (picks : list nat) :
  run (check_gl_error file line) (o_world w picks) =
  let '(e, o') := octx_glGetError (mk_octx (w_gl w) picks) in
  if e =? GL_NO_ERROR then (true, mk_world o' (w_cerr w))
  else (false, mk_world o' (w_cerr w +s+ gl_error_msg file line (describe_error e))%e3d).
Proof.
  rewrite check_gl_error_eq. unfold gl_err, gl_after, run. simpl.
  by destruct (octx_glGetError (mk_octx (w_gl w) picks)).
Qed.

Lemma o_world_eq (w : world flag_ctx) (rest : list nat) (c : flag_ctx) (r : list nat)
    (out : string) :
  o_world w rest = mk_world (mk_octx c r) out -> w = mk_world c out.
Proof. destruct w. unfold o_world. simpl. by intros [= -> _ ->]. Qed.

(** C20: over all choices of the driver, the runs of [check_gl_error]
    on the oracle context are exactly the behaviours [check_spec]
    allows.  Every allowed behaviour happens for some choice, and every
    choice gives an allowed behaviour. *)
Theorem check_gl_error_oracle_exact (file : string) (line : Z)
    (w w' : world flag_ctx) (b : bool) :
  check_spec file line w b w' <->
  exists picks rest,
    run (check_gl_error file line) (o_world w picks) = (b, o_world w' rest).
Proof.
  split.
  - intros [(Hp & -> & ->) | (i & e & Hi & He & -> & ->)].
    + destruct (proj1 (octx_glGetError_exact (w_gl w) (w_gl w) GL_NO_ERROR))
        as (picks & rest & Hg); [by left|].
      exists picks, rest. by rewrite check_gl_error_octx, Hg.
    + destruct (proj1 (octx_glGetError_exact (w_gl w)
        (with_flags (<[i := GL_NO_ERROR]> (flags (w_gl w))) (w_gl w)) e))
        as (picks & rest & Hg); [right; by exists i|].
      exists picks, rest. rewrite check_gl_error_octx, Hg.
      by rewrite (proj2 (Z.eqb_neq e GL_NO_ERROR) He).
  - intros (picks & rest & H). rewrite check_gl_error_octx in H.
    destruct (octx_glGetError (mk_octx (w_gl w) picks)) as [e [c' r']] eqn:Hg.
    assert (glGetError_spec (w_gl w) e c') as Hs
      by (apply octx_glGetError_exact; eauto).
    destruct Hs as [(Hp & -> & ->) | (i & Hi & He & ->)].
    + left. apply pair_equal_spec in H as [<- H].
      symmetry in H. apply o_world_eq in H. by rewrite world_eta in H.
    + right. rewrite (proj2 (Z.eqb_neq e GL_NO_ERROR) He) in H.
      apply pair_equal_spec in H as [<- H]. symmetry in H. apply o_world_eq in H.
      by exists i, e.
Qed.

(** [pending c] reads under any choices of the driver return the pending
    errors in some order and leave every flag clear. *)
Lemma gl_errors_oracle (c : flag_ctx) (picks : list nat) :
  exists es rest, es ≡ₚ filter (fun f => f <> GL_NO_ERROR) (flags c) /\
    gl_errors (pending c) (mk_octx c picks) =
    (es, mk_octx (mk_ctx (replicate (length (flags c)) GL_NO_ERROR)
                   (draw_status c) (read_status c)) rest).
Proof.
  remember (pending c) as n eqn:Hn. revert c picks Hn.
  induction n as [|n IH]; intros c picks Hn.
  - pose proof (pending_zero_flags c (eq_sym Hn)) as Hf.
    unfold pending in Hn. symmetry in Hn. apply length_zero_iff_nil in Hn.
    exists [], picks. rewrite Hn. split; [done|].
    destruct c as [fl d r]. simpl in *. by rewrite <- Hf.
  - destruct (first_flag (flags c)) as [d|] eqn:Hf.
    2: { unfold pending in Hn. rewrite first_flag_none in Hn by done. done. }
    destruct d as [j x]. destruct (first_flag_some _ _ _ Hf) as [Hd Hde].
    destruct (oracle_pick_set (flags c) picks (j, x) Hd Hde) as [Hl Hn0].
    set (i := (oracle_pick (flags c) picks (j, x)).1.1) in *.
    set (e := (oracle_pick (flags c) picks (j, x)).1.2) in *.
    set (c1 := with_flags (<[i := GL_NO_ERROR]> (flags c)) c).
    destruct (IH c1 (oracle_pick (flags c) picks (j, x)).2) as (es & rest & Hp & Hr).
    { unfold pending in *. simpl. rewrite (filter_clear_flag _ i e) by done. lia. }
    exists (e :: es), rest. split.
    + rewrite (filter_clear_perm _ i e Hl Hn0). by f_equiv.
    + cbn [gl_errors]. unfold run. change (@glGetError _ oracle_ctx_gl) with octx_glGetError.
      rewrite (octx_glGetError_some _ _ _ Hf). cbn [fst snd]. fold i e c1.
      rewrite Hr. simpl. by rewrite length_insert.
Qed.

(** C22: whatever the driver chooses, as many checks as there are
    pending errors report every pending error exactly once, in some
    order, return [false] each time, and leave every flag clear. *)
Theorem check_gl_error_n_oracle_perm (w : world flag_ctx) (picks : list nat)
    (file : string) (line : Z) :
  ctx_wf (w_gl w) ->
  exists es rest, es ≡ₚ filter (fun f => f <> GL_NO_ERROR) (flags (w_gl w)) /\
    run (check_gl_error_n (pending (w_gl w)) file line) (o_world w picks) =
    (replicate (pending (w_gl w)) false,
     o_world (mk_world (mk_ctx (replicate (length (flags (w_gl w))) GL_NO_ERROR)
                         (draw_status (w_gl w)) (read_status (w_gl w)))
                (w_cerr w +s+ reports_text file line es)%e3d) rest).
Proof.
  intros Hwf. destruct (gl_errors_oracle (w_gl w) picks) as (es & rest & Hp & Hr).
  exists es, rest. split; [done|].
  rewrite (check_gl_error_n_run (o_world w picks)); [|done | simpl; lia].
  simpl. by rewrite Hr.
Qed.

(** ** Witnesses *)

(** Two errors are pending; the driver reports the one in flag 2 first. *)
Example check_gl_error_driver_choice :
  run (check_gl_error "main.cpp" 42) (o_world (mk_world ctx_two_errors "") [2%nat]) =
  (false, o_world (mk_world (mk_ctx [GL_NO_ERROR; GL_INVALID_VALUE; GL_NO_ERROR]
                              GL_FRAMEBUFFER_COMPLETE GL_FRAMEBUFFER_COMPLETE)
                   ("" +s+ gl_error_msg "main.cpp" 42 "Out of memory")%e3d) []).
Proof. vm_compute. reflexivity. Qed.

Lemma check_gl_error_n_oracle_perm_witness :
  ctx_wf (w_gl (mk_world ctx_two_errors "")) /\
  exists es rest,
    es ≡ₚ filter (fun f => f <> GL_NO_ERROR) (flags (w_gl (mk_world ctx_two_errors ""))) /\
    run (check_gl_error_n (pending (w_gl (mk_world ctx_two_errors ""))) "main.cpp" 42)
      (o_world (mk_world ctx_two_errors "") [2%nat]) =
    (replicate (pending (w_gl (mk_world ctx_two_errors ""))) false,
     o_world (mk_world (mk_ctx (replicate (length (flags (w_gl (mk_world ctx_two_errors ""))))
                                  GL_NO_ERROR)
                         (draw_status (w_gl (mk_world ctx_two_errors "")))
                         (read_status (w_gl (mk_world ctx_two_errors ""))))
                (w_cerr (mk_world ctx_two_errors "") +s+ reports_text "main.cpp" 42 es)%e3d)
       rest).
Proof.
  assert (ctx_wf (w_gl (mk_world ctx_two_errors ""))) as Hwf
    by (apply (bool_decide_unpack _); vm_compute; reflexivity).
  split; [exact Hwf | apply check_gl_error_n_oracle_perm; exact Hwf].
Defined.

End OracleCtx.
