(* ===== verification/ReportFormat.v ===== *)
(** * ReportFormat: reading a report line back

    [check_gl_error] writes "GL error in file '<file>' @ line <line>:
    <description>" and a newline (spec, section 6).  [parse_gl_report]
    reads such a line back.  After the fixed prefix it cuts at the last
    newline, then at the last quote: the file name may contain any
    character, but nothing after it contains a quote.  Then it reads
    the decimal line number up to the first colon, and the description.
    The round trip holds for every file name and every line number,
    with any description free of quotes and newlines.  That covers every
    text [gl_error_string] returns, so every report of [check_gl_error]
    names its file, line and error without ambiguity.  The parser takes
    the prefix as a parameter ([parse_report]). *)

From Stdlib Require Import Ascii DecimalString.
From S2P Require Import Prelude GLEnum OStream ErrorString Reporter.
Import OStream ErrorString.

Module ReportFormat.

(** ** String scanning *)

Fixpoint has_char (c : ascii) (s : string) : bool :=
  match s with
  | EmptyString => false
  | String x s' => Ascii.eqb x c || has_char c s'
  end.

Fixpoint strip_prefix (p s : string) : option string :=
  match p, s with
  | EmptyString, _ => Some s
  | String x p', String y s' => if Ascii.eqb x y then strip_prefix p' s' else None
  | String _ _, EmptyString => None
  end.

(** The text before and after the last [c]. *)
Fixpoint split_last_char (c : ascii) (s : string) : option (string * string) :=
  match s with
  | EmptyString => None
  | String x s' =>
      match split_last_char c s' with
      | Some (a, b) => Some (String x a, b)
      | None => if Ascii.eqb x c then Some (EmptyString, s') else None
      end
  end.

(** The text before and after the first [c]. *)
Fixpoint split_first_char (c : ascii) (s : string) : option (string * string) :=
  match s with
  | EmptyString => None
  | String x s' =>
      if Ascii.eqb x c then Some (EmptyString, s')
      else match split_first_char c s' with
           | Some (a, b) => Some (String x a, b)
           | None => None
           end
  end.

Definition quote : ascii := "'"%char.
Definition colon : ascii := ":"%char.
Definition newline_char : ascii := "010"%char.

(** A report line "<prefix><file>' @ line <line>: <description>" and a
    newline, read back. *)
Definition parse_report (prefix s : string) : option (string * Z * string) :=
  rest ← strip_prefix prefix s;
  '(body, tail) ← split_last_char newline_char rest;
  if String.eqb tail "" then
    '(file, after) ← split_last_char quote body;
    r2 ← strip_prefix " @ line " after;
    '(dec, r3) ← split_first_char colon r2;
    desc ← strip_prefix " " r3;
    n ← dec_to_int dec;
    Some (file, n, desc)
  else None.

Definition parse_gl_report : string -> option (string * Z * string) :=
  parse_report "GL error in file '".

(** ** Lemmas *)

Lemma has_char_app (c : ascii) (a b : string) :
  has_char c (a +s+ b)%e3d = has_char c a || has_char c b.
Proof.
  induction a as [|x a IH]; [done|].
  rewrite string_app_cons. simpl. rewrite IH. by destruct (Ascii.eqb x c).
Qed.

Lemma strip_prefix_app (p s : string) : strip_prefix p (p +s+ s)%e3d = Some s.
Proof.
  induction p as [|x p IH]; [done|].
  rewrite string_app_cons. simpl. by rewrite Ascii.eqb_refl.
Qed.

Lemma split_last_char_none (c : ascii) (s : string) :
  has_char c s = false -> split_last_char c s = None.
Proof.
  induction s as [|x s IH]; [done|]. simpl. intros H.
  apply orb_false_iff in H as [Hx Hs]. by rewrite IH, Hx.
Qed.

Lemma split_last_char_app (c : ascii) (a b : string) :
  has_char c b = false ->
  split_last_char c (a +s+ String c b)%e3d = Some (a, b).
Proof.
  intros Hb. induction a as [|x a IH].
  - simpl. by rewrite split_last_char_none, Ascii.eqb_refl.
  - rewrite string_app_cons. simpl. by rewrite IH.
Qed.

Lemma split_first_char_app (c : ascii) (a b : string) :
  has_char c a = false ->
  split_first_char c (a +s+ String c b)%e3d = Some (a, b).
Proof.
  induction a as [|x a IH]; intros Ha.
  - simpl. by rewrite Ascii.eqb_refl.
  - rewrite string_app_cons. simpl in *.
    apply orb_false_iff in Ha as [Hx Ha]. by rewrite Hx, IH.
Qed.

Lemma has_char_uint (c : ascii) (d : Decimal.uint) :
  has_char c (NilEmpty.string_of_uint d) = true ->
  c ∈ ["0"; "1"; "2"; "3"; "4"; "5"; "6"; "7"; "8"; "9"]%char.
Proof.
  induction d; cbn [NilEmpty.string_of_uint has_char]; try done;
    intros H; apply orb_true_iff in H as [H | H]; auto;
    apply Ascii.eqb_eq in H; subst;
    apply (bool_decide_unpack _); vm_compute; reflexivity.
Qed.

(** The decimal text of an [int] has only digits and a minus sign. *)
Lemma int_to_dec_no_char (c : ascii) (n : Z) :
  c <> "-"%char ->
  c ∉ ["0"; "1"; "2"; "3"; "4"; "5"; "6"; "7"; "8"; "9"]%char ->
  has_char c (int_to_dec n) = false.
Proof.
  intros Hm Hd. unfold int_to_dec.
  destruct (Z.to_int n) as [d|d]; cbn [NilEmpty.string_of_int has_char].
  - destruct (has_char c (NilEmpty.string_of_uint d)) eqn:H; [|done].
    by apply has_char_uint in H.
  - destruct (Ascii.eqb_spec "-" c) as [<-|_]; [congruence|]. cbn [orb].
    destruct (has_char c (NilEmpty.string_of_uint d)) eqn:H; [|done].
    by apply has_char_uint in H.
Qed.

(** A report line parses back to its file, its line number and its
    description, for every prefix, file name and line number, when the
    description has no quote. *)
Lemma parse_report_msg (prefix file desc : string) (line : Z) :
  has_char quote desc = false ->
  parse_report prefix
    (prefix +s+ file +s+ "' @ line " +s+ int_to_dec line +s+ ": " +s+ desc
     +s+ newline)%e3d = Some (file, line, desc).
Proof.
  intros Hq. unfold parse_report.
  rewrite strip_prefix_app.
  assert (Hnl : ((file +s+ "' @ line " +s+ int_to_dec line +s+ ": " +s+ desc
                 +s+ newline) =
                (file +s+ String quote (" @ line " +s+ int_to_dec line +s+ ": "
                 +s+ desc)) +s+ String newline_char "")%e3d)
    by (unfold newline; autorewrite with easy3d_rw; reflexivity).
  rewrite Hnl. cbn [mbind option_bind].
  rewrite split_last_char_app by reflexivity. cbn [mbind option_bind String.eqb].
  rewrite split_last_char_app.
  2: { rewrite !has_char_app, Hq, int_to_dec_no_char; [reflexivity | |];
       [discriminate | apply (bool_decide_unpack _); vm_compute; reflexivity]. }
  cbn [mbind option_bind]. rewrite strip_prefix_app. cbn [mbind option_bind].
  change (": " +s+ desc)%e3d with (String colon (" " +s+ desc))%e3d.
  rewrite split_first_char_app.
  2: { apply int_to_dec_no_char; [discriminate | apply (bool_decide_unpack _); vm_compute; reflexivity]. }
  cbn [mbind option_bind]. rewrite strip_prefix_app. cbn [mbind option_bind].
  by rewrite dec_to_int_to_dec.
Qed.

Lemma gl_error_string_plain (code : GLenum) (str : string) :
  gl_error_string code = Some str ->
  has_char quote str = false /\ has_char newline_char str = false.
Proof.
  unfold gl_error_string. intros H. case_code; injection H as <-; split; reflexivity.
Qed.

(** C14: every line [check_gl_error] can write, for any file name, any line
    number and any error code, parses back to that file, that line
    number and the text [gl_error_string] gave for the code. *)
Theorem gl_error_report_roundtrip (code : GLenum) (str file : string) (line : Z) :
  gl_error_string code = Some str ->
  parse_gl_report (gl_error_msg file line str) = Some (file, line, str).
Proof.
  intros H. destruct (gl_error_string_plain code str H) as [Hq _].
  by apply parse_report_msg.
Qed.

Lemma gl_error_report_roundtrip_witness :
  gl_error_string GL_OUT_OF_MEMORY = Some "Out of memory" /\
  parse_gl_report (gl_error_msg "it's: a\nfile.cpp" (-7) "Out of memory") =
  Some ("it's: a\nfile.cpp"%string, -7, "Out of memory"%string).
Proof.
  split; [reflexivity|]. apply (gl_error_report_roundtrip GL_OUT_OF_MEMORY).
  reflexivity.
Defined.

End ReportFormat.
